(** * Streaming ingestion pipeline of [realtimetrafficanalysis.py]

    A shallow embedding of the producer, the consumer, the batch loader and
    the first lines of the dashboard, followed by the properties of the
    specification that concern them.

    Conventions of the model:
    - a Python value that can travel as JSON is a [pyval]; a [dict] is an
      association list in insertion order (the order matters for the dict
      comprehension of the consumer, where a later key overrides an earlier
      one with the same lowercase form);
    - Python floats are binary64 primitive floats;
    - strings are byte strings; [lower] is [str.lower()] on ASCII strings
      (it leaves the bytes of non-ASCII characters as they are);
    - the outside world (API, CSV files, broker, database, standard output)
      is an explicit [world] threaded through a small state and exception
      monad; a Python exception is [Raise];
    - what the broker and the database server refuse is given by the
      world ([broker_up], [send_fate], [db_up], [db_accepts]);
    - [producer.send] only queues a record and line 90 drops the future
      it returns: a record the broker does not take is lost without an
      exception, and [send] raises only when the client itself refuses
      the record; the topic is the log once the producer's sender thread
      has drained its buffer;
    - the topic is a log that consumers read and never shorten; a consumer
      built without a group id starts at its first message, and the end of
      the log stands for the 10 s without a message after which the
      iterator stops;
    - the consumer receives the log in fetch responses whose sizes the
      world decides; the deserializer of line 103 runs on every record of
      a response when the response is unpacked, before its first record
      reaches the loop (responses of one record give a consumer that
      deserializes record by record);
    - a psycopg2 connection that only the locals of a function hold is
      closed when the function returns; the SQLAlchemy engine of line 36
      keeps the connection of its pool open;
    - [exn_str] stands for [str(e)], whose text depends on the libraries
      and on the server: the statements about printed errors fix the
      prefix of the line and leave its text open;
    - a function that returns None has type [M unit]. *)

From Stdlib Require Import ZArith List String Ascii Bool Lia Floats.
From stdpp Require Import base gmap strings.
Import ListNotations.
Open Scope string_scope.

(** ** Python values *)

#[local] Unset Elimination Schemes.
Inductive pyval : Type :=
| PNone
| PBool (b : bool)
| PInt (z : Z)
| PFloat (f : float)
| PStr (s : string)
| PList (l : list pyval)
| PDict (items : list (string * pyval)).
#[local] Set Elimination Schemes.

Abbreviation pydict := (list (string * pyval)).

(** [str.lower()] on the ASCII range. *)
Definition lower_ascii (c : ascii) : ascii :=
  let n := nat_of_ascii c in
  if (65 <=? n)%nat && (n <=? 90)%nat then ascii_of_nat (n + 32) else c.

Fixpoint lower (s : string) : string :=
  match s with
  | EmptyString => EmptyString
  | String c s' => String (lower_ascii c) (lower s')
  end.

(** [d[k] = v]: an existing key keeps its place, a new key goes last. *)
Fixpoint dict_set (k : string) (v : pyval) (d : pydict) : pydict :=
  match d with
  | [] => [(k, v)]
  | (k', v') :: d' =>
      if String.eqb k k' then (k, v) :: d' else (k', v') :: dict_set k v d'
  end.

(** [d.get(k, None)]. *)
Fixpoint dict_get (k : string) (d : pydict) : pyval :=
  match d with
  | [] => PNone
  | (k', v) :: d' => if String.eqb k k' then v else dict_get k d'
  end.

(** [{k.lower(): v for k, v in items}] (line 113). *)
Definition lower_keys (items : pydict) : pydict :=
  fold_left (fun d kv => dict_set (lower (fst kv)) (snd kv) d) items [].

(** The field list of lines 114-119. *)
Definition fields : list string :=
  [ "segmentid"; "street"; "direction"; "from_street"; "to_street";
    "length"; "street_heading"; "comments"; "start_longitude";
    "start_latitude"; "end_longitude"; "end_latitude";
    "current_speed"; "last_updated" ].

(** [tuple(d.get(k, None) for k in fields)] (line 120), with [d] the
    lowercased dict of line 113. *)
Definition normalize_values (row : pydict) : list pyval :=
  let d := lower_keys row in
  map (fun k => dict_get k d) fields.

(** The record the INSERT of lines 121-124 writes: column [k] of [fields]
    receives the value at the same position of [values]. *)
Definition normalize (row : pydict) : pydict :=
  combine fields (normalize_values row).

(** The value of the last item of [row] whose lowercased key is [k]. *)
Fixpoint last_match (k : string) (row : pydict) : option pyval :=
  match row with
  | [] => None
  | (k', v) :: row' =>
      match last_match k row' with
      | Some v' => Some v'
      | None => if String.eqb k (lower k') then Some v else None
      end
  end.

(** A key of the input is known when its lowercase form is a field. *)
Definition known_key (kv : string * pyval) : bool :=
  existsb (String.eqb (lower (fst kv))) fields.

(** ** The outside world *)

(** The bytes of a Kafka message: the UTF-8 JSON text of a value, or bytes
    that [json.loads(m.decode('utf-8'))] rejects. *)
Inductive payload : Type :=
| JsonDoc (v : pyval)
| Bytes (raw : string).

(** A DataFrame and a database table: column names and rows, a row being
    the dict of its values by column (an absent column reads as NULL). *)
Record frame : Type := Frame {
  columns : list string;
  rows : list pydict
}.

Inductive exn : Type :=
| RequestException
| NoBrokersAvailable
| KafkaError
| JSONDecodeError
| AttributeError
| OperationalError
| UndefinedTable
| DatabaseError
| FileNotFoundError.

(** A stand-in for [str(e)], as printed by the handlers of lines 93 and
    133. *)
Definition exn_str (e : exn) : string :=
  match e with
  | RequestException => "request failed"
  | NoBrokersAvailable => "NoBrokersAvailable"
  | KafkaError => "KafkaError"
  | JSONDecodeError => "Expecting value"
  | AttributeError => "object has no attribute 'items'"
  | OperationalError => "could not connect to server"
  | UndefinedTable => "relation does not exist"
  | DatabaseError => "statement rejected"
  | FileNotFoundError => "No such file or directory"
  end.

(** What becomes of a record handed to [producer.send]: the broker appends
    it to the topic; or [send] returns and the record never reaches the
    topic (the failure is in the future that line 90 drops); or [send]
    itself raises. *)
Inductive fate : Type :=
| Delivered
| Lost
| Refused.

Record world : Type := World {
  (** rows of the snapshot the API serves; [None] when the request or the
      CSV parse raises *)
  api_rows : option (list pydict);
  (** the CSV files that can be read, by path *)
  csv_files : gmap string frame;
  (** whether the broker can be reached *)
  broker_up : bool;
  (** what becomes of a [send] of this value *)
  send_fate : pyval -> fate;
  (** the log of topic 'realtime_traffic', oldest message first *)
  topic : list payload;
  (** messages the most recent consumer has handed to its loop *)
  position : nat;
  (** the [i]-th fetch response a consumer receives carries
      [S (fetch_sizes i)] records, or what is left of the log *)
  fetch_sizes : nat -> nat;
  (** fetch responses received so far *)
  fetches : nat;
  (** whether the database accepts connections *)
  db_up : bool;
  (** whether the server takes an INSERT of this row (column types,
      parameter adaptation) *)
  db_accepts : pydict -> bool;
  (** the tables, by name *)
  db : gmap string frame;
  (** psycopg2 connections opened by the program itself and not closed *)
  open_conns : nat;
  (** whether the pool of the engine of line 36 holds an open connection *)
  pooled : bool;
  (** lines printed so far *)
  stdout : list string
}.

(** Whether a [send] of this value puts it on the topic. *)
Definition broker_accepts (w : world) (v : pyval) : bool :=
  match send_fate w v with
  | Delivered => true
  | _ => false
  end.

Definition set_topic (t : list payload) (w : world) : world :=
  World (api_rows w) (csv_files w) (broker_up w) (send_fate w) t
        (position w) (fetch_sizes w) (fetches w) (db_up w) (db_accepts w)
        (db w) (open_conns w) (pooled w) (stdout w).

Definition set_position (n : nat) (w : world) : world :=
  World (api_rows w) (csv_files w) (broker_up w) (send_fate w) (topic w)
        n (fetch_sizes w) (fetches w) (db_up w) (db_accepts w)
        (db w) (open_conns w) (pooled w) (stdout w).

Definition set_fetch_sizes (f : nat -> nat) (w : world) : world :=
  World (api_rows w) (csv_files w) (broker_up w) (send_fate w) (topic w)
        (position w) f (fetches w) (db_up w) (db_accepts w)
        (db w) (open_conns w) (pooled w) (stdout w).

Definition set_fetches (n : nat) (w : world) : world :=
  World (api_rows w) (csv_files w) (broker_up w) (send_fate w) (topic w)
        (position w) (fetch_sizes w) n (db_up w) (db_accepts w)
        (db w) (open_conns w) (pooled w) (stdout w).

Definition set_db (d : gmap string frame) (w : world) : world :=
  World (api_rows w) (csv_files w) (broker_up w) (send_fate w) (topic w)
        (position w) (fetch_sizes w) (fetches w) (db_up w) (db_accepts w)
        d (open_conns w) (pooled w) (stdout w).

Definition set_open_conns (n : nat) (w : world) : world :=
  World (api_rows w) (csv_files w) (broker_up w) (send_fate w) (topic w)
        (position w) (fetch_sizes w) (fetches w) (db_up w) (db_accepts w)
        (db w) n (pooled w) (stdout w).

Definition set_pooled (b : bool) (w : world) : world :=
  World (api_rows w) (csv_files w) (broker_up w) (send_fate w) (topic w)
        (position w) (fetch_sizes w) (fetches w) (db_up w) (db_accepts w)
        (db w) (open_conns w) b (stdout w).

Definition set_stdout (l : list string) (w : world) : world :=
  World (api_rows w) (csv_files w) (broker_up w) (send_fate w) (topic w)
        (position w) (fetch_sizes w) (fetches w) (db_up w) (db_accepts w)
        (db w) (open_conns w) (pooled w) l.

(** ** State and exception monad *)

Inductive result (A : Type) : Type :=
| Ok (a : A)
| Raise (e : exn).
Arguments Ok {A} a.
Arguments Raise {A} e.

Definition M (A : Type) : Type := world -> result A * world.

Definition ret {A : Type} (a : A) : M A := fun w => (Ok a, w).

Definition raise {A : Type} (e : exn) : M A := fun w => (Raise e, w).

(** The outcome of a computation that does not touch the world. *)
Definition lift {A : Type} (r : result A) : M A := fun w => (r, w).

Definition bind {A B : Type} (c : M A) (k : A -> M B) : M B :=
  fun w =>
    match c w with
    | (Ok a, w') => k a w'
    | (Raise e, w') => (Raise e, w')
    end.

(** [try: body / except Exception as e: handler(e)]. *)
Definition try_except {A : Type} (body : M A) (handler : exn -> M A) : M A :=
  fun w =>
    match body w with
    | (Ok a, w') => (Ok a, w')
    | (Raise e, w') => handler e w'
    end.

(** The return of a function whose locals hold the only references to
    the psycopg2 connections it opened and did not close: the locals are
    reclaimed and psycopg2 closes a connection that is reclaimed. *)
Definition call_frame {A : Type} (body : M A) : M A :=
  fun w =>
    match body w with
    | (r, w') => (r, set_open_conns (open_conns w) w')
    end.

Declare Scope py_scope.
Delimit Scope py_scope with py.
Notation "'let*' x ':=' c 'in' k" := (bind c (fun x => k))
  (at level 10, x name, c at level 100, k at level 200) : py_scope.
Notation "c ;; k" := (bind c (fun _ => k))
  (at level 100, k at level 200, right associativity) : py_scope.
Open Scope py_scope.

Definition print (line : string) : M unit :=
  fun w => (Ok tt, set_stdout (stdout w ++ [line]) w).

(** ** Database operations *)

Inductive sqltype : Type := TEXT | FLOAT.

Inductive statement : Type :=
| CreateTableIfNotExists (name : string) (cols : list (string * sqltype))
| InsertInto (name : string) (cols : list string) (values : list pyval).

(** [psycopg2.connect(DATABASE_URL)]. *)
Definition psycopg2_connect : M unit :=
  fun w =>
    if db_up w then (Ok tt, set_open_conns (S (open_conns w)) w)
    else (Raise OperationalError, w).

(** [conn.close()]. *)
Definition conn_close : M unit :=
  fun w => (Ok tt, set_open_conns (Nat.pred (open_conns w)) w).

(** [cur.execute(...)]; the effect of a statement is applied at once.  A
    stored row records the parameters of its INSERT as Python handed them
    over: the conversion of a parameter to the type of its column is the
    server's and is not modelled, and a row the server cannot convert is
    one that [db_accepts] refuses. *)
Definition cur_execute (q : statement) : M unit :=
  fun w =>
    match q with
    | CreateTableIfNotExists name cols =>
        match db w !! name with
        | Some _ => (Ok tt, w)
        | None => (Ok tt, set_db (<[name := Frame (map fst cols) []]> (db w)) w)
        end
    | InsertInto name cols values =>
        match db w !! name with
        | None => (Raise UndefinedTable, w)
        | Some t =>
            let row := combine cols values in
            if db_accepts w row
            then (Ok tt,
                  set_db (<[name := Frame (columns t) (rows t ++ [row])]> (db w)) w)
            else (Raise DatabaseError, w)
        end
    end.

(** [conn.commit()]: every statement of the program is followed by its
    commit on the same connection, so the commit has nothing left to do. *)
Definition conn_commit : M unit := ret tt.

(** The column list of lines 44-57. *)
Definition realtime_columns : list (string * sqltype) :=
  [ ("segmentid", TEXT); ("street", TEXT); ("direction", TEXT);
    ("from_street", TEXT); ("to_street", TEXT); ("length", FLOAT);
    ("street_heading", TEXT); ("comments", TEXT);
    ("start_longitude", FLOAT); ("start_latitude", FLOAT);
    ("end_longitude", FLOAT); ("end_latitude", FLOAT);
    ("current_speed", FLOAT); ("last_updated", TEXT) ].

(** Lines 39-62. *)
Definition ensure_realtime_table_exists : M unit :=
  psycopg2_connect ;;
  cur_execute (CreateTableIfNotExists "realtime_traffic_data" realtime_columns) ;;
  conn_commit ;;
  conn_close ;;
  print "✅ realtime_traffic_data table ensured".

(** A checkout from the pool of the engine of line 36: the pool opens its
    connection on first use and keeps it open afterwards. *)
Definition engine_connect : M unit :=
  fun w =>
    if db_up w then (Ok tt, set_pooled true w)
    else (Raise OperationalError, w).

(** ** Batch load (lines 65-75) *)

Definition files : list (string * string) :=
  [ ("historical_traffic", "data/historical_traffic.csv");
    ("red_light_violations", "data/red_light_violations.csv");
    ("speed_camera_violations", "data/speed_camera_violations.csv");
    ("traffic_crashes", "data/traffic_crashes.csv") ].

(** [pd.read_csv(path)]. *)
Definition read_csv (path : string) : M frame :=
  fun w =>
    match csv_files w !! path with
    | Some df => (Ok df, w)
    | None => (Raise FileNotFoundError, w)
    end.

(** [df.to_sql(table, engine, if_exists="replace", index=False)]: the
    table is dropped if it exists and created again from the frame. *)
Definition to_sql_replace (df : frame) (table : string) : M unit :=
  engine_connect ;;
  fun w => (Ok tt, set_db (<[table := df]> (db w)) w).

(** The loop of lines 72-74 over [files.items()]. *)
Fixpoint load_files (fs : list (string * string)) : M unit :=
  match fs with
  | [] => ret tt
  | (table, path) :: rest =>
      let* df := read_csv path in
      to_sql_replace df table ;;
      load_files rest
  end.

Definition load_csv_to_postgres : M unit :=
  load_files files ;;
  print "✅ Batch data loaded".

(** ** Producer (lines 78-93) *)

(** Lines 81-82: the GET and the parse of its body into rows. *)
Definition fetch : M (list pydict) :=
  fun w =>
    match api_rows w with
    | Some df => (Ok df, w)
    | None => (Raise RequestException, w)
    end.

(** The constructor of line 84. *)
Definition KafkaProducer : M unit :=
  fun w => if broker_up w then (Ok tt, w) else (Raise NoBrokersAvailable, w).

(** [lambda v: json.dumps(v).encode('utf-8')]. *)
Definition value_serializer (v : pyval) : payload := JsonDoc v.

(** [producer.send('realtime_traffic', v)], its future dropped. *)
Definition producer_send (v : pyval) : M unit :=
  fun w =>
    match send_fate w v with
    | Delivered => (Ok tt, set_topic (topic w ++ [value_serializer v]) w)
    | Lost => (Ok tt, w)
    | Refused => (Raise KafkaError, w)
    end.

(** The loop of lines 89-90. *)
Fixpoint send_rows (df : list pydict) : M unit :=
  match df with
  | [] => ret tt
  | row :: rest => producer_send (PDict row) ;; send_rows rest
  end.

Definition produce_realtime_data : M unit :=
  try_except
    (let* df := fetch in
     KafkaProducer ;;
     send_rows df ;;
     print "✅ Real-time data sent to Kafka")
    (fun e => print ("❌ Failed to fetch/send data: " +:+ exn_str e)).

(** ** Consumer (lines 96-133) *)

(** The constructor of lines 99-106: no group id, so the consumer starts
    at the earliest offset; it hands out the messages of the log. *)
Definition KafkaConsumer : M (list payload) :=
  fun w =>
    if broker_up w then (Ok (topic w), set_position 0 w)
    else (Raise NoBrokersAvailable, w).

(** [lambda m: json.loads(m.decode('utf-8'))]. *)
Definition value_deserializer (m : payload) : result pyval :=
  match m with
  | JsonDoc v => Ok v
  | Bytes _ => Raise JSONDecodeError
  end.

Definition deserializes (m : payload) : bool :=
  match value_deserializer m with
  | Ok _ => true
  | Raise _ => false
  end.

(** The consumer receives its next fetch response, over the messages
    [msgs] it has not handed out yet, and unpacks it: the deserializer
    runs on every record of the response.  The result is the number of
    records of the response that remain once the first is handed out. *)
Definition poll (msgs : list payload) : M nat :=
  fun w =>
    let response := firstn (S (fetch_sizes w (fetches w))) msgs in
    if forallb deserializes response
    then (Ok (Nat.pred (length response)), set_fetches (S (fetches w)) w)
    else (Raise JSONDecodeError, set_fetches (S (fetches w)) w).

(** What the iterator does before it hands out a message: with no
    unpacked record left ([pending] is 0) it polls. *)
Definition next_pending (msgs : list payload) (pending : nat) : M nat :=
  match pending with
  | O => poll msgs
  | S remaining => ret remaining
  end.

(** The iterator hands one more message to the loop body. *)
Definition advance : M unit :=
  fun w => (Ok tt, set_position (S (position w)) w).

(** [msg.value.items()]. *)
Definition py_items (v : pyval) : M pydict :=
  match v with
  | PDict kvs => ret kvs
  | _ => raise AttributeError
  end.

(** The loop of lines 112-130 over the messages not handed out yet, of
    which the first [pending] are unpacked; the iterator stops when no
    message arrives within [consumer_timeout_ms], here at the end of the
    log. *)
Fixpoint consume_loop (msgs : list payload) (pending record_count : nat)
  : M unit :=
  match msgs with
  | [] => ret tt
  | m :: rest =>
      let* pending := next_pending msgs pending in
      let* value := lift (value_deserializer m) in
      advance ;;
      let* kvs := py_items value in
      let d := lower_keys kvs in
      let values := map (fun k => dict_get k d) fields in
      cur_execute (InsertInto "realtime_traffic_data" fields values) ;;
      conn_commit ;;
      let record_count := S record_count in
      if (200 <=? record_count)%nat
      then print "✅ 200 real-time records processed"
      else consume_loop rest pending record_count
  end.

Definition consume_realtime_data : M unit :=
  call_frame
    (try_except
       (ensure_realtime_table_exists ;;
        let* consumer := KafkaConsumer in
        psycopg2_connect ;;
        consume_loop consumer 0 0)
       (fun e => print ("❌ Kafka Error: " +:+ exn_str e))).

(** ** Main (lines 244-245, before the consumer thread starts) *)

Definition main_before_thread : M unit :=
  ensure_realtime_table_exists ;;
  load_csv_to_postgres.

(** ** Dashboard, lines 164-168 *)

(** The binary64 value nearest to an integer. *)
Definition float_of_Z (z : Z) : float :=
  SF2Prim (binary_normalize prec emax z 0 false).

(** A cell of column current_speed after line 166: [pd.NA] or a float. *)
Inductive cell : Type :=
| NA
| Num (f : float).

Record dash_row : Type := DashRow {
  record : pydict;
  current_speed : cell;
  is_congested : bool
}.

(** [pd.read_sql("SELECT * FROM " + name, engine)]. *)
Definition read_sql (name : string) : M frame :=
  engine_connect ;;
  fun w =>
    match db w !! name with
    | Some t => (Ok t, w)
    | None => (Raise UndefinedTable, w)
    end.

Section Dashboard.

(** What pandas' numeric parser gives for an object that is neither a
    number nor None (a string, a bool, a container): its value, or NaN
    where [errors='coerce'] applies. *)
Variable parse_object : pyval -> float.

(** [pd.to_numeric(x, errors='coerce')] on one cell (line 165). *)
Definition to_numeric (v : pyval) : float :=
  match v with
  | PNone => nan
  | PInt z => float_of_Z z
  | PFloat f => f
  | _ => parse_object v
  end.

(** [.replace(-1, pd.NA)] on one cell (line 166). *)
Definition replace_sentinel (f : float) : cell :=
  if PrimFloat.eqb f (-1)%float then NA else Num f.

(** What [dropna] keeps: neither [pd.NA] nor NaN. *)
Definition notna (c : cell) : bool :=
  match c with
  | NA => false
  | Num f => PrimFloat.eqb f f
  end.

(** [df['current_speed'] < 20] on one cell (line 168). *)
Definition lt_20 (c : cell) : bool :=
  match c with
  | NA => false
  | Num f => PrimFloat.ltb f 20%float
  end.

(** The column after lines 165-166, row by row. *)
Definition speed_column (df : frame) : list (pydict * cell) :=
  map (fun r => (r, replace_sentinel (to_numeric (dict_get "current_speed" r))))
      (rows df).

(** The frame after lines 165-168. *)
Definition prepare (df : frame) : list dash_row :=
  map (fun rc => DashRow (fst rc) (snd rc) (lt_20 (snd rc)))
      (List.filter (fun rc => notna (snd rc)) (speed_column df)).

Definition dashboard_frame : M (list dash_row) :=
  let* df := read_sql "realtime_traffic_data" in
  ret (prepare df).

End Dashboard.

(** ** Vocabulary of the statements *)

(** The rows of realtime_traffic_data, none when the table does not exist. *)
Definition realtime_rows (w : world) : list pydict :=
  match db w !! "realtime_traffic_data" with
  | Some t => rows t
  | None => []
  end.

(** The row the consumer derives from a message that holds a JSON object. *)
Definition record_of (m : payload) : pydict :=
  match m with
  | JsonDoc (PDict kvs) => normalize kvs
  | _ => []
  end.

(** A message the loop body can store in world [w]: it deserializes to a
    JSON object and the server takes its row. *)
Definition storable (w : world) (m : payload) : bool :=
  match m with
  | JsonDoc (PDict kvs) => db_accepts w (normalize kvs)
  | _ => false
  end.

(** What a caller of a function of the program can observe of one call:
    the value returned (or the exception raised) and the lines printed. *)
Definition outcome {A : Type} (c : M A) (w : world) : result A * list string :=
  (fst (c w), stdout (snd (c w))).

(** The parts of the world that the consumer loop leaves alone. *)
Definition same_surroundings (w w' : world) : Prop :=
  api_rows w' = api_rows w /\ csv_files w' = csv_files w
  /\ broker_up w' = broker_up w /\ send_fate w' = send_fate w
  /\ topic w' = topic w /\ fetch_sizes w' = fetch_sizes w
  /\ db_up w' = db_up w /\ db_accepts w' = db_accepts w
  /\ open_conns w' = open_conns w /\ pooled w' = pooled w.

(** The tables once line 42 has run. *)
Definition ensured_db (d : gmap string frame) : gmap string frame :=
  match d !! "realtime_traffic_data" with
  | Some _ => d
  | None => <["realtime_traffic_data" := Frame (map fst realtime_columns) []]> d
  end.

(** The world in which the loop of line 112 starts, when the database and
    the broker are reachable: the table is ensured and reported, the
    consumer stands at the earliest offset and the connection of line 108
    is open. *)
Definition ready (w : world) : world :=
  set_open_conns (S (open_conns w))
    (set_position 0
       (set_stdout (stdout w ++ ["✅ realtime_traffic_data table ensured"])
          (set_db (ensured_db (db w)) w))).

(** The line of the handler of lines 132-133, for an exception whose
    [str] is [text]. *)
Definition kafka_line (text : string) : string := "❌ Kafka Error: " +:+ text.

Definition kafka_error (e : exn) : string := "❌ Kafka Error: " +:+ exn_str e.

(** The lines of the producer. *)
Definition sent_line : string := "✅ Real-time data sent to Kafka".

Definition failed_with (text : string) : string :=
  "❌ Failed to fetch/send data: " +:+ text.

Definition failed_line (e : exn) : string :=
  "❌ Failed to fetch/send data: " +:+ exn_str e.

(** The messages the producer writes for the rows of a snapshot. *)
Definition wire (df : list pydict) : list payload :=
  map (fun row => value_serializer (PDict row)) df.

(** Whether [send] raises on a row, and whether the row reaches the
    topic. *)
Definition refused (w : world) (row : pydict) : bool :=
  match send_fate w (PDict row) with
  | Refused => true
  | _ => false
  end.

Definition delivered (w : world) (row : pydict) : bool :=
  broker_accepts w (PDict row).

(** The rows of a snapshot on which [send] returns: those before the
    first one it raises on. *)
Fixpoint handed_over (w : world) (df : list pydict) : list pydict :=
  match df with
  | [] => []
  | row :: rest => if refused w row then [] else row :: handed_over w rest
  end.

(** The rows one call of the producer puts on the topic. *)
Definition published (w : world) : list pydict :=
  match api_rows w with
  | Some df =>
      if broker_up w then List.filter (delivered w) (handed_over w df) else []
  | None => []
  end.

(** The line one call of the producer prints. *)
Definition produce_line (w : world) : string :=
  match api_rows w with
  | None => failed_line RequestException
  | Some df =>
      if broker_up w
      then if existsb (refused w) df then failed_line KafkaError else sent_line
      else failed_line NoBrokersAvailable
  end.

(** The exception the loop body raises on a message, if it raises one. *)
Definition failure_of (w : world) (m : payload) : option exn :=
  match m with
  | Bytes _ => Some JSONDecodeError
  | JsonDoc (PDict kvs) =>
      if db_accepts w (normalize kvs) then None else Some DatabaseError
  | JsonDoc _ => Some AttributeError
  end.

(** One poll of the iterator, seen from outside: whether unpacking the
    response fails, the world afterwards, and the unpacked records left. *)
Definition unpack_fails (w : world) (msgs : list payload) (pending : nat) : bool :=
  match pending with
  | O => negb (forallb deserializes (firstn (S (fetch_sizes w (fetches w))) msgs))
  | S _ => false
  end.

Definition after_poll (w : world) (pending : nat) : world :=
  match pending with
  | O => set_fetches (S (fetches w)) w
  | S _ => w
  end.

Definition pending_after (w : world) (msgs : list payload) (pending : nat) : nat :=
  match pending with
  | O => Nat.pred (length (firstn (S (fetch_sizes w (fetches w))) msgs))
  | S remaining => remaining
  end.


(** A key and its value, the key lowercased. *)
Definition lower_item (kv : string * pyval) : string * pyval :=
  (lower (fst kv), snd kv).

(** A string of ASCII characters, on which [lower] is [str.lower()]. *)
Fixpoint ascii_only (s : string) : bool :=
  match s with
  | EmptyString => true
  | String c s' => (nat_of_ascii c <? 128)%nat && ascii_only s'
  end.

(** The stored rows the dashboard keeps: a speed that is a number and is
    not -1. *)
Definition kept (parse_object : pyval -> float) (r : pydict) : bool :=
  let f := to_numeric parse_object (dict_get "current_speed" r) in
  negb (PrimFloat.eqb f (-1)%float) && PrimFloat.eqb f f.

(** A stored value of current_speed that Python finds equal to -1. *)
Definition is_sentinel (v : pyval) : bool :=
  match v with
  | PInt z => (z =? -1)%Z
  | PFloat f => PrimFloat.eqb f (-1)%float
  | _ => false
  end.

(** The tables after the loop of lines 72-74 over [fs], which stops at
    the first file that cannot be read or, the database being out of
    reach, at the first table. *)
Fixpoint load_effect (w : world) (fs : list (string * string))
         (d : gmap string frame) : gmap string frame :=
  match fs with
  | [] => d
  | (table, path) :: rest =>
      match csv_files w !! path with
      | Some df => if db_up w then load_effect w rest (<[table := df]> d) else d
      | None => d
      end
  end.

(** How that loop ends. *)
Fixpoint load_result (w : world) (fs : list (string * string)) : result unit :=
  match fs with
  | [] => Ok tt
  | (table, path) :: rest =>
      match csv_files w !! path with
      | Some _ => if db_up w then load_result w rest else Raise OperationalError
      | None => Raise FileNotFoundError
      end
  end.

(** Whether that loop reaches the engine at all. *)
Definition load_touch (w : world) (fs : list (string * string)) : bool :=
  match fs with
  | [] => false
  | (_, path) :: _ =>
      match csv_files w !! path with
      | Some _ => db_up w
      | None => false
      end
  end.

(** ** Sample worlds *)

(** One reading of segment "123" with the given speed. *)
Definition reading (speed : Z) : pydict :=
  [ ("segmentid", PStr "123"); ("street", PStr "Main St");
    ("current_speed", PInt speed) ].

(** A world where everything is reachable and empty, where broker and
    server take whatever they are given, and where every fetch response
    carries one record. *)
Definition calm : world :=
  World None ∅ true (fun _ => Delivered) [] 0 (fun _ => 0%nat) 0
        true (fun _ => true) ∅ 0 false [].

(** The same world with fetch responses of up to 1000 records. *)
Definition bulk (w : world) : world := set_fetch_sizes (fun _ => 999%nat) w.

(** A server that cannot adapt a JSON object as the value of a column. *)
Definition rejects_objects (row : pydict) : bool :=
  forallb (fun kv => match snd kv with PDict _ => false | _ => true end) row.

Definition picky : world :=
  World None ∅ true (fun _ => Delivered) [] 0 (fun _ => 0%nat) 0
        true rejects_objects ∅ 0 false [].

(** A reading whose comments field holds a JSON object. *)
Definition odd_reading : pydict :=
  [ ("segmentid", PStr "123"); ("comments", PDict [("note", PStr "x")]) ].

(** A topic of [n] readings, all well formed. *)
Definition backlog (n : nat) : world :=
  set_topic (repeat (JsonDoc (PDict (reading 30))) n) calm.

(** A topic of 201 messages whose first one is not JSON. *)
Definition broken_backlog : world :=
  set_topic (Bytes "{" :: repeat (JsonDoc (PDict (reading 30))) 200) calm.

(** A topic of 201 messages whose last one is not JSON. *)
Definition late_break : world :=
  set_topic (repeat (JsonDoc (PDict (reading 30))) 200 ++ [Bytes "{"]) calm.


(** Topics on which the server of [picky] rejects the last message, after
    no or one stored reading. *)
Definition stalled_at_0 : world :=
  set_topic [ JsonDoc (PDict odd_reading) ] picky.

Definition stalled_at_1 : world :=
  set_topic [ JsonDoc (PDict (reading 15)); JsonDoc (PDict odd_reading) ] picky.

(** A raw row as an API could serve it: upper-case key, extra column. *)
Definition shouting_row : pydict :=
  [ ("SEGMENTID", PStr "123"); ("Extra", PBool true) ].

(** [calm], with the API serving the given snapshot. *)
Definition serving (df : list pydict) : world :=
  World (Some df) ∅ true (fun _ => Delivered) [] 0 (fun _ => 0%nat) 0
        true (fun _ => true) ∅ 0 false [].

(** A client that refuses, and a broker that drops, records of more than
    three fields. *)
Definition refuse_wide (v : pyval) : fate :=
  match v with
  | PDict kvs => if (length kvs <=? 3)%nat then Delivered else Refused
  | _ => Delivered
  end.

Definition drop_wide (v : pyval) : fate :=
  match v with
  | PDict kvs => if (length kvs <=? 3)%nat then Delivered else Lost
  | _ => Delivered
  end.

Definition narrow (df : list pydict) : world :=
  World (Some df) ∅ true refuse_wide [] 0 (fun _ => 0%nat) 0
        true (fun _ => true) ∅ 0 false [].

Definition lossy (df : list pydict) : world :=
  World (Some df) ∅ true drop_wide [] 0 (fun _ => 0%nat) 0
        true (fun _ => true) ∅ 0 false [].

Definition wide_reading : pydict :=
  [ ("segmentid", PStr "123"); ("street", PStr "Main St");
    ("current_speed", PInt 30); ("comments", PStr "roadworks") ].

(** A frame of one column holding the given numbers. *)
Definition counts (l : list Z) : frame :=
  Frame ["n"] (map (fun z => [("n", PInt z)]) l).

(** A world with the four CSV files in place and older tables stored. *)
Definition archive : world :=
  World None
        (<["data/historical_traffic.csv" := counts [1; 2]%Z]>
         (<["data/red_light_violations.csv" := counts [3]%Z]>
          (<["data/speed_camera_violations.csv" := counts []]>
           (<["data/traffic_crashes.csv" := counts [4; 5; 6]%Z]> ∅))))
        true (fun _ => Delivered) [] 0 (fun _ => 0%nat) 0 true (fun _ => true)
        (<["historical_traffic" := counts [7; 8; 9]%Z]>
         (<["realtime_traffic_data" := Frame fields [normalize (reading 30)]]> ∅))
        0 false [].

(** Three readings of segment "123" with speeds 15, -1 and 25. *)
Definition scenario : world :=
  set_topic [ JsonDoc (PDict (reading 15)); JsonDoc (PDict (reading (-1)));
              JsonDoc (PDict (reading 25)) ] calm.

(** A topic with a JSON array after two readings. *)
Definition array_after_two : world :=
  set_topic [ JsonDoc (PDict (reading 15)); JsonDoc (PDict (reading 25));
              JsonDoc (PList [PInt 1]); JsonDoc (PDict (reading 35)) ] calm.

(** [calm] with the database, or the broker, out of reach. *)
Definition db_out : world :=
  World None ∅ true (fun _ => Delivered) [JsonDoc (PDict (reading 15))] 0
        (fun _ => 0%nat) 0 false (fun _ => true) ∅ 0 false [].

Definition broker_out : world :=
  World (Some [reading 15]) ∅ false (fun _ => Delivered)
        [JsonDoc (PDict (reading 15))] 0 (fun _ => 0%nat) 0
        true (fun _ => true) ∅ 0 false [].

(** [archive] without the file of the third table. *)
Definition torn_archive : world :=
  World None
        (<["data/historical_traffic.csv" := counts [1; 2]%Z]>
         (<["data/red_light_violations.csv" := counts [3]%Z]>
          (<["data/traffic_crashes.csv" := counts [4; 5; 6]%Z]> ∅)))
        true (fun _ => Delivered) [] 0 (fun _ => 0%nat) 0 true (fun _ => true)
        (<["speed_camera_violations" := counts [7; 8; 9]%Z]>
         (<["traffic_crashes" := counts [0]%Z]> ∅))
        0 false [].

(** * Properties *)

(** ** Normalization *)

Section Normalization.

Lemma dict_get_set (k k' : string) (v : pyval) (d : pydict) :
  dict_get k (dict_set k' v d) = if String.eqb k k' then v else dict_get k d.
Proof.
  induction d as [|[k0 v0] d IH]; simpl.
  - reflexivity.
  - destruct (String.eqb k' k0) eqn:E0; simpl.
    + apply String.eqb_eq in E0. subst k0.
      destruct (String.eqb k k'); reflexivity.
    + destruct (String.eqb k k0) eqn:E1.
      * apply String.eqb_eq in E1. subst k0.
        rewrite String.eqb_sym, E0. reflexivity.
      * exact IH.
Qed.

Lemma dict_get_fold (items acc : pydict) (k : string) :
  dict_get k (fold_left (fun d kv => dict_set (lower (fst kv)) (snd kv) d) items acc)
  = match last_match k items with
    | Some v => v
    | None => dict_get k acc
    end.
Proof.
  revert acc. induction items as [|[k' v'] items IH]; intros acc; simpl.
  - reflexivity.
  - rewrite IH. destruct (last_match k items) as [v|]; [reflexivity|].
    rewrite dict_get_set. destruct (String.eqb k (lower k')); reflexivity.
Qed.

Lemma dict_get_lower_keys (row : pydict) (k : string) :
  dict_get k (lower_keys row)
  = match last_match k row with Some v => v | None => PNone end.
Proof. unfold lower_keys. rewrite dict_get_fold. reflexivity. Qed.

Lemma dict_get_combine_map (f : string -> pyval) (l : list string) (k : string) :
  In k l -> dict_get k (combine l (map f l)) = f k.
Proof.
  induction l as [|k' l IH]; simpl; [tauto|].
  intros Hin. destruct (String.eqb k k') eqn:E.
  - apply String.eqb_eq in E. congruence.
  - destruct Hin as [->|Hin]; [|auto].
    rewrite String.eqb_refl in E. discriminate.
Qed.

Lemma last_match_absent (k : string) (row : pydict) :
  (forall kv, In kv row -> lower (fst kv) <> k) -> last_match k row = None.
Proof.
  induction row as [|[k' v] row IH]; simpl; intros H; [reflexivity|].
  rewrite IH by (intros kv Hkv; apply H; right; exact Hkv).
  destruct (String.eqb k (lower k')) eqn:E; [|reflexivity].
  apply String.eqb_eq in E. exfalso. apply (H (k', v)); [left; reflexivity|].
  simpl. congruence.
Qed.

Lemma last_match_known (k : string) (row : pydict) :
  In k fields -> last_match k (List.filter known_key row) = last_match k row.
Proof.
  intros Hk. induction row as [|[k' v] row IH]; simpl; [reflexivity|].
  destruct (known_key (k', v)) eqn:E; simpl; rewrite IH; [reflexivity|].
  destruct (last_match k row); [reflexivity|].
  destruct (String.eqb k (lower k')) eqn:E'; [|reflexivity].
  apply String.eqb_eq in E'. subst k.
  unfold known_key in E. cbn [fst] in E.
  assert (existsb (String.eqb (lower k')) fields = true) as E''.
  { apply existsb_exists. exists (lower k'). split; [exact Hk|].
    apply String.eqb_refl. }
  congruence.
Qed.

Lemma normalize_values_length (row : pydict) :
  length (normalize_values row) = 14%nat.
Proof. reflexivity. Qed.

Lemma normalize_values_combine (vs : list pyval) :
  length vs = 14%nat -> normalize_values (combine fields vs) = vs.
Proof.
  intros H.
  do 14 (destruct vs as [|? vs]; [discriminate H|]).
  destruct vs; [|discriminate H].
  vm_compute. reflexivity.
Qed.

End Normalization.

(** C4. Schema completeness: for every raw row, the consumer's
    normalization yields a record with exactly the 14 fields, in the fixed
    order; the value of a field is that of the last input item whose
    lowercased key is the field, None when there is none; items whose
    lowercased key is not a field have no effect on the result. *)
Theorem schema_completeness (row : pydict) :
  map fst (normalize row) = fields
  /\ length (normalize row) = 14%nat
  /\ (forall k, In k fields ->
        dict_get k (normalize row)
        = match last_match k row with Some v => v | None => PNone end)
  /\ (forall k, In k fields ->
        (forall kv, In kv row -> lower (fst kv) <> k) ->
        dict_get k (normalize row) = PNone)
  /\ normalize (List.filter known_key row) = normalize row.
Proof.
  assert (Hget : forall k, In k fields ->
            dict_get k (normalize row)
            = match last_match k row with Some v => v | None => PNone end).
  { intros k Hk. unfold normalize, normalize_values.
    rewrite (dict_get_combine_map (fun k => dict_get k (lower_keys row))) by exact Hk.
    apply dict_get_lower_keys. }
  split; [reflexivity|]. split; [reflexivity|]. split; [exact Hget|]. split.
  - intros k Hk Habs. rewrite Hget by exact Hk.
    rewrite last_match_absent by exact Habs. reflexivity.
  - unfold normalize, normalize_values. f_equal.
    apply map_ext_in. intros k Hk.
    rewrite !dict_get_lower_keys, last_match_known by exact Hk. reflexivity.
Qed.

Lemma schema_completeness_witness :
  In "street" fields
  /\ dict_get "street" (normalize [("SEGMENTID", PInt 7); ("Extra", PBool true)])
     = PNone.
Proof.
  split; [simpl; tauto|].
  destruct (schema_completeness [("SEGMENTID", PInt 7); ("Extra", PBool true)])
    as (_ & _ & _ & H & _).
  apply H; [simpl; tauto|].
  intros kv [<-|[<-|[]]]; simpl; discriminate.
Defined.

(** C5. Normalization idempotence: normalizing a normalized record gives
    the same record. *)
Theorem normalize_idempotent (row : pydict) :
  normalize (normalize row) = normalize row.
Proof.
  unfold normalize.
  rewrite normalize_values_combine by apply normalize_values_length.
  reflexivity.
Qed.

(** ** Running the monad *)

Section Running.

Context {A B : Type}.

Lemma bind_ok (c : M A) (k : A -> M B) (w w' : world) (a : A) :
  c w = (Ok a, w') -> bind c k w = k a w'.
Proof. intros H. unfold bind. rewrite H. reflexivity. Qed.

Lemma bind_raise (c : M A) (k : A -> M B) (w w' : world) (e : exn) :
  c w = (Raise e, w') -> bind c k w = (Raise e, w').
Proof. intros H. unfold bind. rewrite H. reflexivity. Qed.

Lemma try_ok (c : M A) (h : exn -> M A) (w w' : world) (a : A) :
  c w = (Ok a, w') -> try_except c h w = (Ok a, w').
Proof. intros H. unfold try_except. rewrite H. reflexivity. Qed.

Lemma try_raise (c : M A) (h : exn -> M A) (w w' : world) (e : exn) :
  c w = (Raise e, w') -> try_except c h w = h e w'.
Proof. intros H. unfold try_except. rewrite H. reflexivity. Qed.

End Running.

Lemma insert_ok (name : string) (cols : list string) (values : list pyval)
      (w : world) (t : frame) :
  db w !! name = Some t ->
  db_accepts w (combine cols values) = true ->
  cur_execute (InsertInto name cols values) w
  = (Ok tt,
     set_db (<[name := Frame (columns t) (rows t ++ [combine cols values])]> (db w)) w).
Proof. intros Ht Hacc. unfold cur_execute. rewrite Ht, Hacc. reflexivity. Qed.

Lemma insert_rejected (name : string) (cols : list string) (values : list pyval)
      (w : world) (t : frame) :
  db w !! name = Some t ->
  db_accepts w (combine cols values) = false ->
  cur_execute (InsertInto name cols values) w = (Raise DatabaseError, w).
Proof. intros Ht Hacc. unfold cur_execute. rewrite Ht, Hacc. reflexivity. Qed.

(** ** The consumer loop *)

Section ConsumerLoop.

Lemma consume_loop_nil (pending n : nat) (w : world) :
  consume_loop [] pending n w = (Ok tt, w).
Proof. reflexivity. Qed.

Lemma next_pending_run (msgs : list payload) (pending : nat) (w : world) :
  next_pending msgs pending w
  = ((if unpack_fails w msgs pending
      then Raise JSONDecodeError
      else Ok (pending_after w msgs pending)),
     after_poll w pending).
Proof.
  destruct pending as [|q]; [|reflexivity].
  unfold next_pending, poll, unpack_fails, pending_after, after_poll.
  destruct (forallb deserializes _); reflexivity.
Qed.

Lemma after_poll_fields (w : world) (pending : nat) :
  db (after_poll w pending) = db w
  /\ stdout (after_poll w pending) = stdout w
  /\ position (after_poll w pending) = position w
  /\ same_surroundings w (after_poll w pending).
Proof.
  destruct pending; unfold same_surroundings; cbn; tauto.
Qed.

Lemma in_firstn {A : Type} (n : nat) (l : list A) (x : A) :
  In x (firstn n l) -> In x l.
Proof.
  intros H. rewrite <- (firstn_skipn n l). apply in_or_app. left. exact H.
Qed.

(** Unpacking cannot fail where every message deserializes. *)
Lemma unpack_safe (w : world) (msgs : list payload) (pending : nat) :
  Forall (fun m => deserializes m = true) msgs ->
  unpack_fails w msgs pending = false.
Proof.
  intros Hall. destruct pending as [|q]; [|reflexivity].
  unfold unpack_fails. apply negb_false_iff, forallb_forall.
  intros m Hm. rewrite List.Forall_forall in Hall.
  apply Hall. exact (in_firstn _ _ _ Hm).
Qed.

Lemma storable_deserializes (w : world) (m : payload) :
  storable w m = true -> deserializes m = true.
Proof. destruct m as [v|raw]; [reflexivity | discriminate]. Qed.

(** One turn of the loop when the response it needs cannot be unpacked. *)
Lemma turn_unpack_fails (m : payload) (rest : list payload) (pending n : nat)
      (w : world) :
  unpack_fails w (m :: rest) pending = true ->
  consume_loop (m :: rest) pending n w
  = (Raise JSONDecodeError, after_poll w pending).
Proof.
  intros H. cbn [consume_loop].
  apply bind_raise. rewrite next_pending_run, H. reflexivity.
Qed.

(** One turn of the loop on a message that can be stored. *)
Lemma turn_step (kvs : pydict) (rest : list payload) (pending n : nat)
      (w : world) (t : frame) :
  unpack_fails w (JsonDoc (PDict kvs) :: rest) pending = false ->
  db w !! "realtime_traffic_data" = Some t ->
  db_accepts w (normalize kvs) = true ->
  consume_loop (JsonDoc (PDict kvs) :: rest) pending n w
  = let w1 :=
      set_db (<["realtime_traffic_data" :=
                  Frame (columns t) (rows t ++ [normalize kvs])]> (db w))
             (set_position (S (position w)) (after_poll w pending)) in
    if (200 <=? S n)%nat
    then print "✅ 200 real-time records processed" w1
    else consume_loop rest
           (pending_after w (JsonDoc (PDict kvs) :: rest) pending) (S n) w1.
Proof.
  intros Hun Ht Hacc.
  destruct (after_poll_fields w pending) as (Hdb & _ & Hpos & Hsame).
  cbn [consume_loop].
  erewrite bind_ok by (rewrite next_pending_run, Hun; reflexivity).
  erewrite bind_ok by reflexivity.
  erewrite bind_ok by reflexivity.
  erewrite bind_ok by reflexivity.
  erewrite bind_ok.
  2:{ apply insert_ok.
      - cbn [db set_position]. rewrite Hdb. exact Ht.
      - cbn [db_accepts set_position].
        destruct Hsame as (_ & _ & _ & _ & _ & _ & _ & Hda & _).
        change (combine fields (map (fun k => dict_get k (lower_keys kvs)) fields))
          with (normalize kvs).
        rewrite Hda. exact Hacc. }
  erewrite bind_ok by reflexivity.
  cbv zeta. cbn [db set_position position]. rewrite Hdb, Hpos.
  destruct (200 <=? S n)%nat; reflexivity.
Qed.

(** One turn of the loop on a message the body fails on. *)
Lemma turn_fails (m : payload) (rest : list payload) (pending n : nat)
      (w : world) (t : frame) (e : exn) :
  unpack_fails w (m :: rest) pending = false ->
  db w !! "realtime_traffic_data" = Some t ->
  failure_of w m = Some e ->
  exists w',
    consume_loop (m :: rest) pending n w = (Raise e, w')
    /\ db w' = db w /\ stdout w' = stdout w /\ same_surroundings w w'.
Proof.
  intros Hun Ht Hf.
  destruct (after_poll_fields w pending) as (Hdb & Hout & Hpos & Hsame).
  cbn [consume_loop].
  rewrite (bind_ok _ _ w (after_poll w pending)
                   (pending_after w (m :: rest) pending))
    by (rewrite next_pending_run, Hun; reflexivity).
  destruct m as [v|raw].
  2:{ injection Hf as <-. exists (after_poll w pending).
      split; [reflexivity|]. tauto. }
  assert (Hsame' : same_surroundings w (set_position (S (position (after_poll w pending)))
                                          (after_poll w pending))).
  { unfold same_surroundings in *. cbn. exact Hsame. }
  destruct v as [| | | | | |kvs];
    try (injection Hf as <-;
         exists (set_position (S (position (after_poll w pending)))
                              (after_poll w pending));
         split; [reflexivity|]; cbn [db stdout set_position]; tauto).
  cbn [failure_of] in Hf.
  destruct (db_accepts w (normalize kvs)) eqn:Hacc; [discriminate|].
  injection Hf as <-.
  exists (set_position (S (position (after_poll w pending))) (after_poll w pending)).
  split; [|cbn [db stdout set_position]; tauto].
  erewrite bind_ok by reflexivity.
  erewrite bind_ok by reflexivity.
  erewrite bind_ok by reflexivity.
  erewrite bind_raise; [reflexivity|].
  apply (insert_rejected _ _ _ _ t).
  - cbn [db set_position]. rewrite Hdb. exact Ht.
  - cbn [db_accepts set_position].
    destruct Hsame as (_ & _ & _ & _ & _ & _ & _ & Hda & _).
    change (combine fields (map (fun k => dict_get k (lower_keys kvs)) fields))
      with (normalize kvs).
    rewrite Hda. exact Hacc.
Qed.

Lemma storable_failure (w : world) (m : payload) :
  storable w m = true <-> failure_of w m = None.
Proof.
  destruct m as [[| | | | | |kvs]|raw]; cbn [storable failure_of];
    try (split; discriminate).
  destruct (db_accepts w (normalize kvs)); split; congruence.
Qed.

Lemma storable_same_server (w w' : world) (m : payload) :
  db_accepts w' = db_accepts w -> storable w' m = storable w m.
Proof.
  intros H. destruct m as [[| | | | | |kvs]|raw]; cbn [storable]; try reflexivity.
  rewrite H. reflexivity.
Qed.

Lemma failure_same_server (w w' : world) (m : payload) :
  db_accepts w' = db_accepts w -> failure_of w' m = failure_of w m.
Proof.
  intros H. destruct m as [[| | | | | |kvs]|raw]; cbn [failure_of]; try reflexivity.
  rewrite H. reflexivity.
Qed.

(** The world after a stored message, against the world before. *)
Lemma stored_fields (w : world) (pending : nat) (d : gmap string frame) :
  let w1 := set_db d (set_position (S (position w)) (after_poll w pending)) in
  db w1 = d /\ position w1 = S (position w) /\ stdout w1 = stdout w
  /\ same_surroundings w w1.
Proof.
  destruct pending; unfold same_surroundings; cbn; tauto.
Qed.

Lemma same_surroundings_trans (w1 w2 w3 : world) :
  same_surroundings w1 w2 -> same_surroundings w2 w3 -> same_surroundings w1 w3.
Proof.
  unfold same_surroundings.
  intros (A1 & A2 & A3 & A4 & A5 & A6 & A7 & A8 & A9 & A10)
         (B1 & B2 & B3 & B4 & B5 & B6 & B7 & B8 & B9 & B10).
  repeat split; congruence.
Qed.

(** A run of the loop over messages that all deserialize and of which
    those within the quota can be stored: what it stores, what it prints
    and what it leaves alone. *)
Lemma consume_loop_run (msgs : list payload) :
  forall (pending n : nat) (w : world) (t : frame),
    (n < 200)%nat ->
    db w !! "realtime_traffic_data" = Some t ->
    Forall (fun m => deserializes m = true) msgs ->
    Forall (fun m => storable w m = true) (firstn (200 - n) msgs) ->
    exists w',
      consume_loop msgs pending n w = (Ok tt, w')
      /\ db w' = <["realtime_traffic_data" :=
                    Frame (columns t)
                          (rows t ++ map record_of (firstn (200 - n) msgs))]> (db w)
      /\ position w' = (position w + length (firstn (200 - n) msgs))%nat
      /\ stdout w'
         = (stdout w ++ (if (200 - n <=? length msgs)%nat
                         then ["✅ 200 real-time records processed"] else []))%list
      /\ same_surroundings w w'.
Proof.
  induction msgs as [|m rest IH]; intros pending n w t Hn Ht Hdes Hall.
  - exists w. rewrite consume_loop_nil, firstn_nil. cbn [map length].
    destruct (Nat.leb_spec (200 - n) 0) as [Hle|_]; [lia|].
    rewrite !app_nil_r, Nat.add_0_r. destruct t as [cols rs]. cbn [columns rows].
    rewrite insert_id by exact Ht.
    unfold same_surroundings. tauto.
  - replace (200 - n)%nat with (S (200 - S n)) in * by lia.
    cbn [firstn] in *.
    apply Forall_cons_iff in Hall. destruct Hall as [Hm Hall].
    pose proof (unpack_safe w (m :: rest) pending Hdes) as Hun.
    apply Forall_cons_iff in Hdes. destruct Hdes as [_ Hdes].
    destruct m as [[| | | | | |kvs]|raw]; try discriminate Hm.
    cbn [storable] in Hm.
    rewrite (turn_step kvs rest pending n w t Hun Ht Hm). cbv zeta.
    set (d1 := <["realtime_traffic_data" :=
                   Frame (columns t) (rows t ++ [normalize kvs])]> (db w)).
    destruct (stored_fields w pending d1) as (Hd1 & Hp1 & Ho1 & Hs1).
    cbv zeta in Hd1, Hp1, Ho1, Hs1.
    set (w1 := set_db d1 _) in *.
    destruct (Nat.leb_spec 200 (S n)) as [Hq|Hq].
    + replace (200 - S n)%nat with 0%nat by lia.
      eexists. split; [reflexivity|].
      rewrite firstn_O.
      cbn [map length record_of print snd set_stdout db position stdout Nat.leb].
      rewrite Hd1, Hp1, Ho1. subst d1.
      split; [reflexivity|]. split; [lia|]. split; [reflexivity|].
      unfold same_surroundings in *. cbn. exact Hs1.
    + destruct (IH (pending_after w (JsonDoc (PDict kvs) :: rest) pending) (S n) w1
                   (Frame (columns t) (rows t ++ [normalize kvs])))
        as (w' & Hrun & Hdb & Hpos & Hout & Hsame).
      * exact Hq.
      * rewrite Hd1. subst d1. apply lookup_insert_eq.
      * exact Hdes.
      * eapply List.Forall_impl; [|exact Hall]. intros m Hm'.
        rewrite (storable_same_server w w1 m); [exact Hm'|]. apply Hs1.
      * exists w'. split; [exact Hrun|].
        rewrite Hd1 in Hdb. subst d1. cbn [columns rows] in Hdb.
        rewrite insert_insert_eq in Hdb.
        cbn [map length record_of].
        rewrite <- app_assoc in Hdb. cbn [app] in Hdb.
        split; [exact Hdb|]. split; [rewrite Hpos, Hp1; lia|].
        split; [rewrite Hout, Ho1; reflexivity|].
        exact (same_surroundings_trans _ _ _ Hs1 Hsame).
Qed.

(** Every run of the loop, failing or not: the table gains the rows of
    the first [k] messages, in order, for some [k] within the quota, and
    what is printed tells how the run ended. *)
Lemma consume_loop_trace (msgs : list payload) :
  forall (pending n : nat) (w : world) (t : frame),
    (n < 200)%nat ->
    db w !! "realtime_traffic_data" = Some t ->
    exists r w' k,
      consume_loop msgs pending n w = (r, w')
      /\ db w' = <["realtime_traffic_data" :=
                    Frame (columns t) (rows t ++ map record_of (firstn k msgs))]>
                   (db w)
      /\ same_surroundings w w'
      /\ ((r = Ok tt /\ k = (200 - n)%nat /\ (k <= length msgs)%nat
           /\ stdout w'
              = (stdout w ++ ["✅ 200 real-time records processed"])%list)
          \/ (r = Ok tt /\ k = length msgs /\ (k < 200 - n)%nat
              /\ stdout w' = stdout w)
          \/ (exists e, r = Raise e /\ (k < 200 - n)%nat /\ (k < length msgs)%nat
                        /\ stdout w' = stdout w)).
Proof.
  induction msgs as [|m rest IH]; intros pending n w t Hn Ht.
  - exists (Ok tt), w, 0%nat. rewrite consume_loop_nil. cbn [firstn map length].
    rewrite app_nil_r. destruct t as [cols rs]. cbn [columns rows].
    rewrite insert_id by exact Ht.
    split; [reflexivity|]. split; [reflexivity|].
    split; [unfold same_surroundings; tauto|].
    right. left. repeat split; lia.
  - assert (Hstay : forall (e : exn) (w' : world),
               consume_loop (m :: rest) pending n w = (Raise e, w') ->
               db w' = db w -> stdout w' = stdout w -> same_surroundings w w' ->
               exists r w'' k,
                 consume_loop (m :: rest) pending n w = (r, w'')
                 /\ db w'' = <["realtime_traffic_data" :=
                                Frame (columns t)
                                      (rows t ++ map record_of (firstn k (m :: rest)))]>
                               (db w)
                 /\ same_surroundings w w''
                 /\ ((r = Ok tt /\ k = (200 - n)%nat /\ (k <= length (m :: rest))%nat
                      /\ stdout w''
                         = (stdout w ++ ["✅ 200 real-time records processed"])%list)
                     \/ (r = Ok tt /\ k = length (m :: rest) /\ (k < 200 - n)%nat
                         /\ stdout w'' = stdout w)
                     \/ (exists e', r = Raise e' /\ (k < 200 - n)%nat
                                    /\ (k < length (m :: rest))%nat
                                    /\ stdout w'' = stdout w))).
    { intros e w' Hrun Hdb Hout Hsame.
      exists (Raise e), w', 0%nat. cbn [firstn map length]. rewrite app_nil_r.
      destruct t as [cols rs]. cbn [columns rows].
      rewrite insert_id by exact Ht.
      split; [exact Hrun|]. split; [exact Hdb|]. split; [exact Hsame|].
      right. right. exists e. repeat split; [lia | lia | exact Hout]. }
    destruct (unpack_fails w (m :: rest) pending) eqn:Hun.
    { destruct (after_poll_fields w pending) as (Hdb & Hout & _ & Hsame).
      exact (Hstay _ _ (turn_unpack_fails m rest pending n w Hun) Hdb Hout Hsame). }
    destruct (failure_of w m) as [e|] eqn:Hf.
    { destruct (turn_fails m rest pending n w t e Hun Ht Hf)
        as (w' & Hrun & Hdb & Hout & Hsame).
      exact (Hstay _ _ Hrun Hdb Hout Hsame). }
    clear Hstay.
    apply storable_failure in Hf.
    destruct m as [[| | | | | |kvs]|raw]; try discriminate Hf.
    cbn [storable] in Hf.
    rewrite (turn_step kvs rest pending n w t Hun Ht Hf). cbv zeta.
    set (d1 := <["realtime_traffic_data" :=
                   Frame (columns t) (rows t ++ [normalize kvs])]> (db w)).
    destruct (stored_fields w pending d1) as (Hd1 & Hp1 & Ho1 & Hs1).
    cbv zeta in Hd1, Hp1, Ho1, Hs1.
    set (w1 := set_db d1 _) in *.
    destruct (Nat.leb_spec 200 (S n)) as [Hq|Hq].
    + eexists (Ok tt), _, 1%nat. split; [reflexivity|].
      cbn [firstn map length record_of print snd set_stdout db stdout].
      rewrite Hd1, Ho1. subst d1.
      split; [reflexivity|].
      split; [unfold same_surroundings in *; cbn; exact Hs1|].
      left. repeat split; lia.
    + destruct (IH (pending_after w (JsonDoc (PDict kvs) :: rest) pending) (S n) w1
                   (Frame (columns t) (rows t ++ [normalize kvs])))
        as (r & w' & k & Hrun & Hdb & Hsame & Hend).
      { exact Hq. }
      { rewrite Hd1. subst d1. apply lookup_insert_eq. }
      exists r, w', (S k). split; [exact Hrun|].
      rewrite Hd1 in Hdb. subst d1. cbn [columns rows] in Hdb.
      rewrite insert_insert_eq in Hdb. rewrite <- app_assoc in Hdb.
      split; [exact Hdb|].
      split; [exact (same_surroundings_trans _ _ _ Hs1 Hsame)|].
      rewrite Ho1 in Hend. cbn [length].
      destruct Hend as [(-> & -> & Hk & Hout)
                       |[(-> & -> & Hk & Hout)|(e & -> & Hk1 & Hk2 & Hout)]].
      * left. repeat split; [lia | lia | exact Hout].
      * right. left. repeat split; [lia | exact Hout].
      * right. right. exists e. repeat split; [lia | lia | exact Hout].
Qed.

(** A run of the loop over messages that all deserialize, when the body
    first fails on the message after [good]. *)
Lemma consume_loop_stops (good : list payload) :
  forall (bad : payload) (rest : list payload) (pending n : nat) (w : world)
         (t : frame) (e : exn),
    (n + length good < 200)%nat ->
    db w !! "realtime_traffic_data" = Some t ->
    Forall (fun m => deserializes m = true) (good ++ bad :: rest) ->
    Forall (fun m => storable w m = true) good ->
    failure_of w bad = Some e ->
    exists w',
      consume_loop (good ++ bad :: rest) pending n w = (Raise e, w')
      /\ db w' = <["realtime_traffic_data" :=
                    Frame (columns t) (rows t ++ map record_of good)]> (db w)
      /\ stdout w' = stdout w
      /\ same_surroundings w w'.
Proof.
  induction good as [|m good IH]; intros bad rest pending n w t e Hn Ht Hdes Hall Hf.
  - cbn [app] in *.
    pose proof (unpack_safe w (bad :: rest) pending Hdes) as Hun.
    destruct (turn_fails bad rest pending n w t e Hun Ht Hf)
      as (w' & Hrun & Hdb & Hout & Hsame).
    exists w'. cbn [map]. rewrite app_nil_r.
    destruct t as [cols rs]. cbn [columns rows].
    rewrite insert_id by exact Ht. tauto.
  - cbn [app length] in *.
    pose proof (unpack_safe w _ pending Hdes) as Hun.
    apply Forall_cons_iff in Hdes. destruct Hdes as [_ Hdes].
    apply Forall_cons_iff in Hall. destruct Hall as [Hm Hall].
    destruct m as [[| | | | | |kvs]|raw]; try discriminate Hm.
    cbn [storable] in Hm.
    rewrite (turn_step kvs _ pending n w t Hun Ht Hm). cbv zeta.
    set (d1 := <["realtime_traffic_data" :=
                   Frame (columns t) (rows t ++ [normalize kvs])]> (db w)).
    destruct (stored_fields w pending d1) as (Hd1 & Hp1 & Ho1 & Hs1).
    cbv zeta in Hd1, Hp1, Ho1, Hs1.
    set (w1 := set_db d1 _) in *.
    destruct (Nat.leb_spec 200 (S n)) as [Hq|Hq]; [lia|].
    destruct (IH bad rest
                 (pending_after w (JsonDoc (PDict kvs) :: good ++ bad :: rest) pending)
                 (S n) w1 (Frame (columns t) (rows t ++ [normalize kvs])) e)
      as (w' & Hrun & Hdb & Hout & Hsame).
    + lia.
    + rewrite Hd1. subst d1. apply lookup_insert_eq.
    + exact Hdes.
    + eapply List.Forall_impl; [|exact Hall]. intros m Hm'.
      rewrite (storable_same_server w w1 m); [exact Hm'|]. apply Hs1.
    + rewrite (failure_same_server w w1 bad); [exact Hf|]. apply Hs1.
    + exists w'. split; [exact Hrun|].
      rewrite Hd1 in Hdb. subst d1. cbn [columns rows] in Hdb.
      rewrite insert_insert_eq in Hdb. rewrite <- app_assoc in Hdb.
      split; [exact Hdb|]. split; [rewrite Hout, Ho1; reflexivity|].
      exact (same_surroundings_trans _ _ _ Hs1 Hsame).
Qed.

End ConsumerLoop.

(** ** The consume cycle *)

Section ConsumeCycle.

Lemma ensure_up (w : world) :
  db_up w = true ->
  ensure_realtime_table_exists w
  = (Ok tt,
     set_stdout (stdout w ++ ["✅ realtime_traffic_data table ensured"])
                (set_db (ensured_db (db w)) w)).
Proof.
  destruct w as [ar cf bu sf tp ps fz fs du da d oc pl out]. cbn. intros ->.
  unfold ensure_realtime_table_exists, bind, psycopg2_connect, cur_execute,
    ensured_db.
  cbn [db_up db set_open_conns].
  destruct (d !! "realtime_traffic_data"); reflexivity.
Qed.

Lemma ensure_down (w : world) :
  db_up w = false ->
  ensure_realtime_table_exists w = (Raise OperationalError, w).
Proof.
  intros Hup. unfold ensure_realtime_table_exists, bind, psycopg2_connect.
  rewrite Hup. reflexivity.
Qed.

(** The cycle from the run of its loop, when database and broker are
    reachable. *)
Lemma consume_run (w w' : world) (r : result unit) :
  db_up w = true ->
  broker_up w = true ->
  consume_loop (topic w) 0 0 (ready w) = (r, w') ->
  consume_realtime_data w
  = (Ok tt,
     set_open_conns (open_conns w)
       match r with
       | Ok _ => w'
       | Raise e => set_stdout (stdout w' ++ [kafka_error e]) w'
       end).
Proof.
  intros Hdb Hbr Hrun.
  unfold consume_realtime_data, call_frame, try_except.
  rewrite (bind_ok _ _ _ _ _ (ensure_up w Hdb)).
  assert (Hbody :
            (let* consumer := KafkaConsumer in
             psycopg2_connect ;; consume_loop consumer 0 0)
              (set_stdout (stdout w ++ ["✅ realtime_traffic_data table ensured"])
                          (set_db (ensured_db (db w)) w))
            = consume_loop (topic w) 0 0 (ready w)).
  { destruct w as [ar cf bu sf tp ps fz fs du da d oc pl out].
    cbn in Hdb, Hbr. subst. reflexivity. }
  rewrite Hbody, Hrun. destruct r as [[]|e]; reflexivity.
Qed.

Lemma consume_db_down (w : world) :
  db_up w = false ->
  consume_realtime_data w
  = (Ok tt, set_stdout (stdout w ++ [kafka_error OperationalError]) w).
Proof.
  intros Hdb. unfold consume_realtime_data, call_frame.
  erewrite try_raise by (apply bind_raise, ensure_down, Hdb).
  destruct w; reflexivity.
Qed.

Lemma consume_broker_down (w : world) :
  db_up w = true ->
  broker_up w = false ->
  consume_realtime_data w
  = (Ok tt,
     set_stdout (stdout w ++ ["✅ realtime_traffic_data table ensured";
                              kafka_error NoBrokersAvailable])
                (set_db (ensured_db (db w)) w)).
Proof.
  intros Hdb Hbr. unfold consume_realtime_data, call_frame, try_except.
  rewrite (bind_ok _ _ _ _ _ (ensure_up w Hdb)).
  destruct w as [ar cf bu sf tp ps fz fs du da d oc pl out].
  cbn in Hdb, Hbr. subst.
  unfold bind, KafkaConsumer, print, set_stdout. cbn.
  rewrite <- app_assoc. reflexivity.
Qed.

Lemma ensured_lookup (d : gmap string frame) :
  exists t, ensured_db d !! "realtime_traffic_data" = Some t
            /\ rows t = match d !! "realtime_traffic_data" with
                        | Some t0 => rows t0
                        | None => []
                        end.
Proof.
  unfold ensured_db. destruct (d !! "realtime_traffic_data") as [t|] eqn:E.
  - exists t. rewrite E. split; reflexivity.
  - eexists. rewrite lookup_insert_eq. split; reflexivity.
Qed.

Lemma ensured_elsewhere (d : gmap string frame) (name : string) :
  name <> "realtime_traffic_data" -> ensured_db d !! name = d !! name.
Proof.
  intros Hne. unfold ensured_db.
  destruct (d !! "realtime_traffic_data"); [reflexivity|].
  apply lookup_insert_ne. congruence.
Qed.

Lemma realtime_rows_ensured (w w' : world) :
  db w' = ensured_db (db w) -> realtime_rows w' = realtime_rows w.
Proof.
  intros H. unfold realtime_rows. rewrite H.
  destruct (ensured_lookup (db w)) as (t & Ht & Hrows).
  rewrite Ht. exact Hrows.
Qed.

(** The rows of the table after the loop has added some to the ensured
    table. *)
Lemma realtime_rows_added (w w' : world) (t : frame) (added : list pydict) :
  ensured_db (db w) !! "realtime_traffic_data" = Some t ->
  rows t = realtime_rows w ->
  db w' = <["realtime_traffic_data" := Frame (columns t) (rows t ++ added)]>
            (db (ready w)) ->
  realtime_rows w' = (realtime_rows w ++ added)%list.
Proof.
  intros Ht Hrows Hdb. unfold realtime_rows at 1. rewrite Hdb.
  rewrite lookup_insert_eq. cbn [rows]. rewrite Hrows. reflexivity.
Qed.

Lemma ensured_table (w : world) :
  exists t, db (ready w) !! "realtime_traffic_data" = Some t
            /\ ensured_db (db w) !! "realtime_traffic_data" = Some t
            /\ rows t = realtime_rows w.
Proof.
  destruct (ensured_lookup (db w)) as (t & Ht & Hrows).
  exists t. split; [exact Ht|]. split; [exact Ht|]. exact Hrows.
Qed.

(** A cycle over messages that all deserialize and of which those within
    the quota can be stored. *)
Lemma consume_stores (w : world) :
  db_up w = true ->
  broker_up w = true ->
  Forall (fun m => deserializes m = true) (topic w) ->
  Forall (fun m => storable w m = true) (firstn 200 (topic w)) ->
  exists w',
    consume_realtime_data w = (Ok tt, w')
    /\ realtime_rows w'
       = (realtime_rows w ++ map record_of (firstn 200 (topic w)))%list
    /\ position w' = length (firstn 200 (topic w))
    /\ stdout w'
       = (stdout w ++ "✅ realtime_traffic_data table ensured"
                   :: (if (200 <=? length (topic w))%nat
                       then ["✅ 200 real-time records processed"] else []))%list
    /\ topic w' = topic w /\ db_up w' = db_up w /\ broker_up w' = broker_up w
    /\ db_accepts w' = db_accepts w /\ open_conns w' = open_conns w.
Proof.
  intros Hdb Hbr Hdes Hall.
  destruct (ensured_table w) as (t & Ht & Ht' & Hrows).
  destruct (consume_loop_run (topic w) 0 0 (ready w) t) as
    (w' & Hrun & Hdb' & Hpos & Hout & Hsame).
  { lia. }
  { exact Ht. }
  { exact Hdes. }
  { exact Hall. }
  change (200 - 0)%nat with 200%nat in *.
  eexists. rewrite (consume_run w w' (Ok tt) Hdb Hbr Hrun).
  split; [reflexivity|].
  destruct Hsame as (_ & _ & Hbu & _ & Htp & _ & Hdu & Hda & _ & _).
  cbn [db position stdout topic db_up broker_up db_accepts open_conns
       set_open_conns].
  split; [exact (realtime_rows_added w _ t _ Ht' Hrows Hdb')|].
  split; [exact Hpos|].
  split; [rewrite Hout; cbn [stdout ready set_open_conns set_position set_stdout];
          rewrite <- app_assoc; reflexivity|].
  repeat split; assumption.
Qed.

End ConsumeCycle.

(** C2 (as amended). Quota termination: when database and broker are
    reachable and the topic holds at least 200 messages, all of which
    deserialize and of which the first 200 can be stored, one consume
    cycle returns normally, appends exactly the rows of those 200 messages
    to the table, hands no further message to its loop, leaves the topic
    as it is and prints the quota line. *)
Theorem quota_termination (w : world) :
  db_up w = true ->
  broker_up w = true ->
  (200 <= length (topic w))%nat ->
  Forall (fun m => deserializes m = true) (topic w) ->
  Forall (fun m => storable w m = true) (firstn 200 (topic w)) ->
  fst (consume_realtime_data w) = Ok tt
  /\ realtime_rows (snd (consume_realtime_data w))
     = (realtime_rows w ++ map record_of (firstn 200 (topic w)))%list
  /\ length (realtime_rows (snd (consume_realtime_data w)))
     = (length (realtime_rows w) + 200)%nat
  /\ position (snd (consume_realtime_data w)) = 200%nat
  /\ topic (snd (consume_realtime_data w)) = topic w
  /\ stdout (snd (consume_realtime_data w))
     = (stdout w ++ ["✅ realtime_traffic_data table ensured";
                     "✅ 200 real-time records processed"])%list.
Proof.
  intros Hdb Hbr Hlen Hdes Hall.
  destruct (consume_stores w Hdb Hbr Hdes Hall)
    as (w' & Hrun & Hrows & Hpos & Hout & Htopic & _).
  rewrite Hrun. cbn [fst snd].
  assert (Hfl : length (firstn 200 (topic w)) = 200%nat).
  { rewrite length_firstn. lia. }
  split; [reflexivity|]. split; [exact Hrows|].
  split; [rewrite Hrows, length_app, length_map, Hfl; reflexivity|].
  split; [rewrite Hpos, Hfl; reflexivity|].
  split; [exact Htopic|].
  rewrite Hout.
  destruct (Nat.leb_spec 200 (length (topic w))) as [_|Hlt]; [|lia].
  reflexivity.
Qed.

Lemma quota_termination_witness :
  length (realtime_rows (snd (consume_realtime_data (backlog 201)))) = 200%nat
  /\ position (snd (consume_realtime_data (backlog 201))) = 200%nat.
Proof.
  destruct (quota_termination (backlog 201)) as (_ & _ & Hlen & Hpos & _).
  - reflexivity.
  - reflexivity.
  - apply Nat.leb_le. reflexivity.
  - apply List.Forall_forall. intros m Hm.
    apply repeat_spec in Hm. subst m. reflexivity.
  - change (firstn 200 (topic (backlog 201)))
      with (repeat (JsonDoc (PDict (reading 30))) 200).
    apply List.Forall_forall. intros m Hm.
    apply repeat_spec in Hm. subst m. reflexivity.
  - split; [exact Hlen | exact Hpos].
Defined.

(** C2 as stated fails.  Of 201 available messages the first is not JSON:
    the cycle stores nothing, whatever the size of the fetch responses.
    Of 201 available messages the last is not JSON and arrives in the
    same fetch response as the others: the cycle stores nothing either.
    In no case is the quota line printed. *)
Lemma quota_termination_counterexample :
  (200 <= length (topic broken_backlog))%nat
  /\ realtime_rows (snd (consume_realtime_data broken_backlog)) = []
  /\ realtime_rows (snd (consume_realtime_data (bulk broken_backlog))) = []
  /\ realtime_rows (snd (consume_realtime_data (bulk late_break))) = []
  /\ ~ In "✅ 200 real-time records processed"
          (stdout (snd (consume_realtime_data broken_backlog)))
  /\ ~ In "✅ 200 real-time records processed"
          (stdout (snd (consume_realtime_data (bulk late_break)))).
Proof.
  split; [apply Nat.leb_le; reflexivity|].
  split; [vm_compute; reflexivity|].
  split; [vm_compute; reflexivity|].
  split; [vm_compute; reflexivity|].
  split; vm_compute; intros [H|[H|[]]]; discriminate H.
Qed.




(** C6 (as amended). Consume outcome reporting: every invocation of the
    consume cycle returns None and raises nothing.  With the database out
    of reach it prints one error line alone.  Otherwise it prints the
    table line first: followed by one error line when the broker is out
    of reach; and, the broker being reachable, followed by nothing exactly
    when the loop ran out of messages after storing the rows of all of
    them, fewer than 200; by the quota line exactly when it stored the
    rows of the first 200 messages; and by one error line when it failed
    after storing the rows of fewer than 200 messages, not all. *)
Theorem consume_outcome (w : world) :
  fst (consume_realtime_data w) = Ok tt
  /\ (db_up w = false ->
      exists text,
        stdout (snd (consume_realtime_data w)) = (stdout w ++ [kafka_line text])%list)
  /\ (db_up w = true -> broker_up w = false ->
      exists text,
        stdout (snd (consume_realtime_data w))
        = (stdout w ++ ["✅ realtime_traffic_data table ensured";
                        kafka_line text])%list)
  /\ (db_up w = true -> broker_up w = true ->
      exists k,
        realtime_rows (snd (consume_realtime_data w))
        = (realtime_rows w ++ map record_of (firstn k (topic w)))%list
        /\ ((k = length (topic w) /\ (k < 200)%nat
             /\ stdout (snd (consume_realtime_data w))
                = (stdout w ++ ["✅ realtime_traffic_data table ensured"])%list)
            \/ (k = 200%nat /\ (200 <= length (topic w))%nat
                /\ stdout (snd (consume_realtime_data w))
                   = (stdout w ++ ["✅ realtime_traffic_data table ensured";
                                   "✅ 200 real-time records processed"])%list)
            \/ ((k < 200)%nat /\ (k < length (topic w))%nat
                /\ exists text,
                     stdout (snd (consume_realtime_data w))
                     = (stdout w ++ ["✅ realtime_traffic_data table ensured";
                                     kafka_line text])%list))).
Proof.
  destruct (db_up w) eqn:Hdb.
  2:{ rewrite (consume_db_down w Hdb). cbn [fst snd stdout set_stdout].
      split; [reflexivity|]. split.
      - intros _. exists (exn_str OperationalError). reflexivity.
      - split; discriminate. }
  destruct (broker_up w) eqn:Hbr.
  2:{ rewrite (consume_broker_down w Hdb Hbr). cbn [fst snd stdout set_stdout].
      split; [reflexivity|]. split; [discriminate|]. split.
      - intros _ _. exists (exn_str NoBrokersAvailable). reflexivity.
      - discriminate. }
  destruct (ensured_table w) as (t & Ht & Ht' & Hrows).
  destruct (consume_loop_trace (topic w) 0 0 (ready w) t) as
    (r & w' & k & Hrun & Hdb' & _ & Hend).
  { lia. }
  { exact Ht. }
  rewrite (consume_run w w' r Hdb Hbr Hrun). cbn [fst snd].
  split; [reflexivity|]. split; [discriminate|]. split; [discriminate|].
  intros _ _. exists k.
  change (200 - 0)%nat with 200%nat in Hend.
  assert (Hready : stdout (ready w)
                   = (stdout w ++ ["✅ realtime_traffic_data table ensured"])%list)
    by reflexivity.
  destruct Hend as [(-> & -> & Hk & Hout)
                   |[(-> & -> & Hk & Hout)|(e & -> & Hk1 & Hk2 & Hout)]].
  - split; [exact (realtime_rows_added w _ t _ Ht' Hrows Hdb')|].
    right. left. split; [reflexivity|]. split; [exact Hk|].
    cbn [stdout set_open_conns]. rewrite Hout, Hready, <- app_assoc. reflexivity.
  - split; [exact (realtime_rows_added w _ t _ Ht' Hrows Hdb')|].
    left. split; [reflexivity|]. split; [exact Hk|].
    cbn [stdout set_open_conns]. rewrite Hout, Hready. reflexivity.
  - split; [exact (realtime_rows_added w _ t _ Ht' Hrows Hdb')|].
    right. right. split; [exact Hk1|]. split; [exact Hk2|].
    exists (exn_str e).
    cbn [stdout set_open_conns set_stdout]. rewrite Hout, Hready, <- app_assoc.
    reflexivity.
Qed.

Lemma consume_outcome_witness :
  exists text,
    stdout (snd (consume_realtime_data db_out)) = [kafka_line text].
Proof.
  destruct (consume_outcome db_out) as (_ & H & _).
  exact (H eq_refl).
Defined.

(** C6 as stated fails: the outcome carries no count.  Two cycles that end
    by idle timeout after 1 and after 2 records return and print the same,
    and so do two cycles whose insert fails on the same row after 0 and
    after 1 records. *)
Lemma consume_outcome_counterexample :
  (outcome consume_realtime_data (backlog 1)
   = outcome consume_realtime_data (backlog 2)
   /\ length (realtime_rows (snd (consume_realtime_data (backlog 1)))) = 1%nat
   /\ length (realtime_rows (snd (consume_realtime_data (backlog 2)))) = 2%nat)
  /\ (outcome consume_realtime_data stalled_at_1
      = outcome consume_realtime_data stalled_at_0
      /\ length (realtime_rows (snd (consume_realtime_data stalled_at_0))) = 0%nat
      /\ length (realtime_rows (snd (consume_realtime_data stalled_at_1))) = 1%nat).
Proof.
  repeat split; vm_compute; reflexivity.
Qed.


(** ** The producer *)

Section Producer.

Lemma same_fate (w w' : world) (df : list pydict) :
  send_fate w' = send_fate w ->
  handed_over w' df = handed_over w df
  /\ existsb (refused w') df = existsb (refused w) df
  /\ List.filter (delivered w') df = List.filter (delivered w) df.
Proof.
  intros H.
  assert (Hr : forall row, refused w' row = refused w row)
    by (intros row; unfold refused; rewrite H; reflexivity).
  assert (Hd : forall row, delivered w' row = delivered w row)
    by (intros row; unfold delivered, broker_accepts; rewrite H; reflexivity).
  induction df as [|row df (IH1 & IH2 & IH3)];
    cbn [handed_over existsb List.filter]; [repeat split|].
  rewrite Hr, Hd, IH1, IH2, IH3. repeat split.
Qed.

(** The loop of lines 89-90: [send] returns on the rows before the first
    one it raises on, and the broker appends those it takes. *)
Lemma send_rows_run (df : list pydict) :
  forall w : world,
    send_rows df w
    = ((if existsb (refused w) df then Raise KafkaError else Ok tt),
       set_topic (topic w ++ wire (List.filter (delivered w) (handed_over w df))) w).
Proof.
  induction df as [|row df IH]; intros w.
  - cbn [send_rows existsb handed_over List.filter wire map]. rewrite app_nil_r.
    destruct w; reflexivity.
  - cbn [send_rows existsb handed_over].
    assert (Hr : refused w row
                 = match send_fate w (PDict row) with Refused => true | _ => false end)
      by reflexivity.
    assert (Hd : delivered w row
                 = match send_fate w (PDict row) with Delivered => true | _ => false end)
      by reflexivity.
    unfold bind at 1, producer_send.
    destruct (send_fate w (PDict row)) eqn:Hfate; rewrite Hr.
    + rewrite IH.
      destruct (same_fate w (set_topic (topic w ++ [value_serializer (PDict row)]) w)
                          df eq_refl) as (-> & -> & _).
      rewrite (proj2 (proj2 (same_fate w (set_topic _ w) (handed_over w df) eq_refl))).
      cbn [orb List.filter]. rewrite Hd.
      cbn [topic set_topic wire map]. rewrite <- app_assoc.
      destruct w; reflexivity.
    + rewrite IH. cbn [orb List.filter]. rewrite Hd. reflexivity.
    + cbn [orb List.filter wire map]. rewrite app_nil_r. destruct w; reflexivity.
Qed.

(** One call of the producer, in every world. *)
Lemma produce_run (w : world) :
  produce_realtime_data w
  = (Ok tt,
     set_stdout (stdout w ++ [produce_line w])
                (set_topic (topic w ++ wire (published w)) w)).
Proof.
  unfold produce_realtime_data, produce_line, published.
  destruct (api_rows w) as [df|] eqn:Hapi.
  2:{ unfold try_except, bind, fetch. rewrite Hapi. cbn [wire map].
      rewrite app_nil_r. destruct w; reflexivity. }
  destruct (broker_up w) eqn:Hbr.
  2:{ unfold try_except, bind, fetch, KafkaProducer. rewrite Hapi, Hbr.
      cbn [wire map]. rewrite app_nil_r. destruct w; reflexivity. }
  unfold try_except, bind at 1, fetch. rewrite Hapi.
  unfold bind at 1, KafkaProducer. rewrite Hbr.
  unfold bind at 1. rewrite send_rows_run.
  destruct (existsb (refused w) df); reflexivity.
Qed.

Lemma all_delivered (w : world) (df : list pydict) :
  Forall (fun row => broker_accepts w (PDict row) = true) df ->
  handed_over w df = df
  /\ existsb (refused w) df = false
  /\ List.filter (delivered w) df = df.
Proof.
  induction 1 as [|row df Hrow _ (IH1 & IH2 & IH3)];
    cbn [handed_over existsb List.filter]; [repeat split|].
  unfold delivered at 1. rewrite Hrow.
  assert (Hr : refused w row = false).
  { unfold refused. unfold broker_accepts in Hrow.
    destruct (send_fate w (PDict row)); [reflexivity | discriminate | discriminate]. }
  rewrite Hr, IH1, IH2, IH3. repeat split.
Qed.

Lemma none_refused (w : world) (df : list pydict) :
  existsb (refused w) df = false -> handed_over w df = df.
Proof.
  induction df as [|row df IH]; cbn [existsb handed_over]; [reflexivity|].
  intros H. apply orb_false_iff in H. destruct H as [-> H].
  rewrite (IH H). reflexivity.
Qed.

Lemma stops_at_refusal (w : world) (sent rest : list pydict) (row : pydict) :
  existsb (refused w) sent = false ->
  refused w row = true ->
  handed_over w (sent ++ row :: rest) = sent
  /\ existsb (refused w) (sent ++ row :: rest) = true.
Proof.
  intros Hsent Hrow. induction sent as [|r sent IH]; cbn [app handed_over existsb].
  - rewrite Hrow. split; reflexivity.
  - cbn [existsb] in Hsent. apply orb_false_iff in Hsent. destruct Hsent as [-> Hsent].
    destruct (IH Hsent) as [-> ->]. split; reflexivity.
Qed.

Lemma produce_all (w : world) (df : list pydict) :
  api_rows w = Some df ->
  broker_up w = true ->
  Forall (fun row => broker_accepts w (PDict row) = true) df ->
  produce_realtime_data w
  = (Ok tt, set_stdout (stdout w ++ [sent_line]) (set_topic (topic w ++ wire df) w)).
Proof.
  intros Hapi Hbr Hall. rewrite produce_run.
  unfold produce_line, published. rewrite Hapi, Hbr.
  destruct (all_delivered w df Hall) as (-> & -> & ->). reflexivity.
Qed.

End Producer.

(** C1 (as amended). Normalization happens once, in the consumer: when the
    snapshot is fetched and the broker takes every row, the Publisher puts
    each raw row on the wire as it was fetched, keys and fields unchanged;
    a consume cycle that then runs on a topic that was empty before stores,
    for each of the first 200 rows, the 14-field record of the row. *)
Theorem normalized_by_consumer (w : world) (df : list pydict) :
  api_rows w = Some df ->
  broker_up w = true ->
  Forall (fun row => broker_accepts w (PDict row) = true) df ->
  topic w = [] ->
  db_up w = true ->
  Forall (fun row => db_accepts w (normalize row) = true) df ->
  topic (snd (produce_realtime_data w)) = map (fun row => JsonDoc (PDict row)) df
  /\ realtime_rows (snd (consume_realtime_data (snd (produce_realtime_data w))))
     = (realtime_rows w ++ map normalize (firstn 200 df))%list.
Proof.
  intros Hapi Hbr Hbacc Htopic Hdb Hdacc.
  rewrite (produce_all w df Hapi Hbr Hbacc). cbn [snd].
  set (w1 := set_stdout _ _).
  assert (Ht1 : topic w1 = wire df).
  { unfold w1. cbn [topic set_stdout set_topic]. rewrite Htopic. reflexivity. }
  split; [exact Ht1|].
  destruct (consume_stores w1) as (w' & Hrun & Hrows & _).
  { exact Hdb. }
  { exact Hbr. }
  { rewrite Ht1. unfold wire. apply List.Forall_forall. intros m Hm.
    apply in_map_iff in Hm. destruct Hm as (row & <- & _). reflexivity. }
  { rewrite Ht1. apply List.Forall_forall. intros m Hm.
    apply in_firstn in Hm.
    unfold wire in Hm. apply in_map_iff in Hm. destruct Hm as (row & <- & Hrow).
    rewrite List.Forall_forall in Hdacc. exact (Hdacc row Hrow). }
  rewrite Hrun. cbn [snd]. rewrite Hrows, Ht1.
  unfold wire. rewrite firstn_map, map_map. reflexivity.
Qed.

Lemma normalized_by_consumer_witness :
  topic (snd (produce_realtime_data (serving [shouting_row])))
  = [JsonDoc (PDict shouting_row)]
  /\ realtime_rows (snd (consume_realtime_data
                          (snd (produce_realtime_data (serving [shouting_row])))))
     = [normalize shouting_row].
Proof.
  destruct (normalized_by_consumer (serving [shouting_row]) [shouting_row])
    as (Hwire & Hrows).
  - reflexivity.
  - reflexivity.
  - repeat constructor.
  - reflexivity.
  - reflexivity.
  - repeat constructor.
  - split; [exact Hwire | exact Hrows].
Defined.

(** C1 as stated fails: for a fetched row with an upper-case key and an
    extra column, the message on the wire is that very row, which is not
    its 14-field record. *)
Lemma normalized_before_publication_counterexample :
  topic (snd (produce_realtime_data (serving [shouting_row])))
  = [JsonDoc (PDict shouting_row)]
  /\ JsonDoc (PDict shouting_row) <> JsonDoc (PDict (normalize shouting_row))
  /\ map fst shouting_row <> fields.
Proof.
  split; [vm_compute; reflexivity|].
  split; intros H; vm_compute in H; discriminate H.
Qed.

(** C7 (as amended). Publish outcome reporting: every invocation of the
    producer returns None and raises nothing, and prints exactly one line.
    It prints the success line exactly when the snapshot was fetched, the
    broker was reachable and no [send] raised: the topic then holds, in
    source order, the rows the broker took, and a row it did not take is
    missing without any report, the result of [send] being dropped.  It
    prints one failure line when the fetch failed or the broker was out of
    reach (nothing is sent), and when a [send] raised: the rows before it
    that the broker took are on the topic, no later row is sent. *)
Theorem produce_outcome (w : world) :
  fst (produce_realtime_data w) = Ok tt
  /\ (api_rows w = None ->
      topic (snd (produce_realtime_data w)) = topic w
      /\ exists text,
           stdout (snd (produce_realtime_data w))
           = (stdout w ++ [failed_with text])%list)
  /\ (forall df, api_rows w = Some df -> broker_up w = false ->
      topic (snd (produce_realtime_data w)) = topic w
      /\ exists text,
           stdout (snd (produce_realtime_data w))
           = (stdout w ++ [failed_with text])%list)
  /\ (forall df, api_rows w = Some df -> broker_up w = true ->
      existsb (refused w) df = false ->
      topic (snd (produce_realtime_data w))
      = (topic w ++ wire (List.filter (delivered w) df))%list
      /\ stdout (snd (produce_realtime_data w)) = (stdout w ++ [sent_line])%list)
  /\ (forall sent row rest,
         api_rows w = Some (sent ++ row :: rest)%list -> broker_up w = true ->
         existsb (refused w) sent = false -> refused w row = true ->
         topic (snd (produce_realtime_data w))
         = (topic w ++ wire (List.filter (delivered w) sent))%list
         /\ exists text,
              stdout (snd (produce_realtime_data w))
              = (stdout w ++ [failed_with text])%list).
Proof.
  rewrite produce_run. cbn [fst snd topic stdout set_stdout set_topic].
  unfold published, produce_line.
  split; [reflexivity|]. split; [|split; [|split]].
  - intros ->. cbn [wire map]. rewrite app_nil_r.
    split; [reflexivity|]. exists (exn_str RequestException). reflexivity.
  - intros df -> ->. cbn [wire map]. rewrite app_nil_r.
    split; [reflexivity|]. exists (exn_str NoBrokersAvailable). reflexivity.
  - intros df -> -> Hnone. rewrite Hnone, (none_refused w df Hnone).
    split; reflexivity.
  - intros sent row rest -> -> Hsent Hrow.
    destruct (stops_at_refusal w sent rest row Hsent Hrow) as [-> ->].
    split; [reflexivity|]. exists (exn_str KafkaError). reflexivity.
Qed.

Lemma produce_outcome_witness :
  topic (snd (produce_realtime_data (lossy [reading 15; wide_reading; reading 25])))
  = [JsonDoc (PDict (reading 15)); JsonDoc (PDict (reading 25))]
  /\ stdout (snd (produce_realtime_data
                    (lossy [reading 15; wide_reading; reading 25])))
     = [sent_line].
Proof.
  destruct (produce_outcome (lossy [reading 15; wide_reading; reading 25]))
    as (_ & _ & _ & H & _).
  exact (H [reading 15; wide_reading; reading 25] eq_refl eq_refl eq_refl).
Defined.

(** C7 as stated fails: the outcome carries no count.  Two publications of
    1 and of 2 rows return and print the same; so do two publications on
    which [send] raises after 0 and after 1 message sent; and a
    publication of 3 rows of which the broker drops one returns and
    prints what a publication of 2 rows does. *)
Lemma produce_outcome_counterexample :
  (outcome produce_realtime_data (serving [reading 15])
   = outcome produce_realtime_data (serving [reading 15; reading 25])
   /\ length (topic (snd (produce_realtime_data (serving [reading 15])))) = 1%nat
   /\ length (topic (snd (produce_realtime_data
                            (serving [reading 15; reading 25])))) = 2%nat)
  /\ (outcome produce_realtime_data (narrow [reading 15; wide_reading])
      = outcome produce_realtime_data (narrow [wide_reading])
      /\ length (topic (snd (produce_realtime_data (narrow [wide_reading])))) = 0%nat
      /\ length (topic (snd (produce_realtime_data
                               (narrow [reading 15; wide_reading])))) = 1%nat)
  /\ (outcome produce_realtime_data (lossy [reading 15; wide_reading; reading 25])
      = outcome produce_realtime_data (serving [reading 15; reading 25])
      /\ length (topic (snd (produce_realtime_data
                               (lossy [reading 15; wide_reading; reading 25]))))
         = 2%nat).
Proof.
  repeat split; vm_compute; reflexivity.
Qed.

(** ** The batch load *)

Section LoadFacts.

Lemma load_files_run (fs : list (string * string)) :
  forall (w0 w : world),
    csv_files w = csv_files w0 ->
    db_up w = db_up w0 ->
    load_files fs w
    = (load_result w0 fs,
       set_pooled (pooled w || load_touch w0 fs)
                  (set_db (load_effect w0 fs (db w)) w)).
Proof.
  induction fs as [|[t p] fs IH]; intros w0 w Hcsv Hup;
    cbn [load_files load_effect load_result load_touch].
  - destruct w; cbn. rewrite orb_false_r. reflexivity.
  - unfold bind at 1, read_csv. rewrite Hcsv.
    destruct (csv_files w0 !! p) as [df|];
      [|destruct w; cbn; rewrite orb_false_r; reflexivity].
    unfold bind at 1, to_sql_replace, bind at 1, engine_connect. rewrite Hup.
    destruct (db_up w0) eqn:E;
      [|destruct w; cbn; rewrite orb_false_r; reflexivity].
    rewrite (IH w0 (set_db (<[t := df]> (db w)) (set_pooled true w)) Hcsv
                (eq_trans Hup (eq_sym E))).
    destruct w; cbn. rewrite orb_true_r. reflexivity.
Qed.

(** The batch load, in every world. *)
Lemma load_run (w : world) :
  load_csv_to_postgres w
  = match load_result w files with
    | Ok _ => (Ok tt,
               set_stdout (stdout w ++ ["✅ Batch data loaded"])
                 (set_pooled (pooled w || load_touch w files)
                    (set_db (load_effect w files (db w)) w)))
    | Raise e => (Raise e,
                  set_pooled (pooled w || load_touch w files)
                    (set_db (load_effect w files (db w)) w))
    end.
Proof.
  unfold load_csv_to_postgres, bind.
  rewrite (load_files_run files w w eq_refl eq_refl).
  destruct (load_result w files) as [[]|e]; reflexivity.
Qed.

Lemma load_effect_elsewhere (w : world) (fs : list (string * string)) :
  forall (d : gmap string frame) (name : string),
    ~ In name (map fst fs) -> load_effect w fs d !! name = d !! name.
Proof.
  induction fs as [|[t p] fs IH]; intros d name Hname; cbn [load_effect].
  - reflexivity.
  - cbn [map fst In] in Hname.
    destruct (csv_files w !! p) as [df|]; [|reflexivity].
    destruct (db_up w); [|reflexivity].
    rewrite IH by tauto. apply lookup_insert_ne. intros ->. tauto.
Qed.

Lemma load_result_ok (w : world) (fs : list (string * string)) :
  fs <> [] ->
  (load_result w fs = Ok tt
   <-> db_up w = true
       /\ forall table path, In (table, path) fs -> is_Some (csv_files w !! path)).
Proof.
  induction fs as [|[t p] fs IH]; intros Hne; [congruence|].
  cbn [load_result].
  destruct (csv_files w !! p) as [df|] eqn:Hcsv.
  - destruct (db_up w) eqn:Hup.
    + destruct fs as [|tp fs].
      * cbn [load_result]. split; [|reflexivity]. intros _. split; [reflexivity|].
        intros table path [Heq|[]]. injection Heq as <- <-. rewrite Hcsv. eexists.
        reflexivity.
      * rewrite IH by discriminate. split.
        -- intros [_ H]. split; [reflexivity|]. intros table path [Heq|Hin].
           ++ injection Heq as <- <-. rewrite Hcsv. eexists. reflexivity.
           ++ exact (H table path Hin).
        -- intros [_ H]. split; [reflexivity|]. intros table path Hin.
           apply (H table path). right. exact Hin.
    + split; [discriminate|]. intros [H _]. discriminate H.
  - split; [discriminate|]. intros [_ H].
    destruct (H t p (or_introl eq_refl)) as [df Hdf]. congruence.
Qed.

(** The loop stops at the first file that cannot be read. *)
Lemma load_effect_prefix (w : world) (done : list (string * string)) :
  forall (t p : string) (rest : list (string * string)) (d : gmap string frame),
    db_up w = true ->
    (forall table path, In (table, path) done -> is_Some (csv_files w !! path)) ->
    csv_files w !! p = None ->
    load_effect w (done ++ (t, p) :: rest) d = load_effect w done d
    /\ load_result w (done ++ (t, p) :: rest) = Raise FileNotFoundError.
Proof.
  induction done as [|[t0 p0] done IH]; intros t p rest d Hup Hread Hmiss;
    cbn [app load_effect load_result].
  - rewrite Hmiss. split; reflexivity.
  - destruct (Hread t0 p0 (or_introl eq_refl)) as [df Hdf]. rewrite Hdf, Hup.
    apply IH; try assumption.
    intros table path Hin. apply (Hread table path). right. exact Hin.
Qed.

Lemma load_same_files (w w' : world) (fs : list (string * string)) :
  csv_files w' = csv_files w ->
  db_up w' = db_up w ->
  load_result w' fs = load_result w fs
  /\ forall d, load_effect w' fs d = load_effect w fs d.
Proof.
  intros Hcsv Hup. induction fs as [|[t p] fs [IHr IHe]];
    cbn [load_result load_effect]; [split; reflexivity|].
  rewrite Hcsv, Hup, IHr. split; [reflexivity|].
  intros d. destruct (csv_files w !! p); [|reflexivity].
  destruct (db_up w); [apply IHe | reflexivity].
Qed.

Lemma load_effect_inside (w : world) (fs : list (string * string)) :
  forall (d : gmap string frame),
    db_up w = true ->
    List.NoDup (map fst fs) ->
    (forall table path, In (table, path) fs -> is_Some (csv_files w !! path)) ->
    forall table path, In (table, path) fs ->
      load_effect w fs d !! table = csv_files w !! path.
Proof.
  induction fs as [|[t p] fs IH]; intros d Hup Hnd Hread table path Hin;
    [destruct Hin|].
  cbn [load_effect]. cbn [map fst] in Hnd.
  apply List.NoDup_cons_iff in Hnd. destruct Hnd as [Hnotin Hnd].
  destruct (Hread t p (or_introl eq_refl)) as [df Hdf]. rewrite Hdf, Hup.
  destruct Hin as [Heq|Hin].
  - injection Heq as <- <-. rewrite load_effect_elsewhere by exact Hnotin.
    rewrite Hdf. apply lookup_insert_eq.
  - apply IH; try assumption.
    intros table' path' Hin'. apply (Hread table' path'). right. exact Hin'.
Qed.

Lemma files_distinct : List.NoDup (map fst files).
Proof.
  cbn. repeat (constructor; [cbn; intros H;
                             repeat (destruct H as [H|H]; [discriminate H|]);
                             exact H|]).
  constructor.
Qed.

End LoadFacts.



(** ** The dashboard *)

Section DashboardFacts.

Variable parse_object : pyval -> float.

Lemma sentinel_numeric (v : pyval) :
  is_sentinel v = true ->
  PrimFloat.eqb (to_numeric parse_object v) (-1)%float = true.
Proof.
  destruct v as [| |z|f| | |]; cbn [is_sentinel]; try discriminate.
  - intros Hz. apply Z.eqb_eq in Hz. subst z. vm_compute. reflexivity.
  - intros Hf. exact Hf.
Qed.

Lemma sentinel_replaced (f : float) :
  PrimFloat.eqb f (-1)%float = true -> replace_sentinel f = NA.
Proof. intros Hf. unfold replace_sentinel. rewrite Hf. reflexivity. Qed.

Lemma replace_sentinel_num (f g : float) :
  replace_sentinel f = Num g -> g = f /\ PrimFloat.eqb g (-1)%float = false.
Proof.
  unfold replace_sentinel. destruct (PrimFloat.eqb f (-1)%float) eqn:E.
  - discriminate.
  - intros H. injection H as <-. split; [reflexivity | exact E].
Qed.

(** Every row of the frame of line 168 comes from a stored row, and its
    speed is a number other than -1 and other than NaN. *)
Lemma prepare_rows (df : frame) (dr : dash_row) :
  In dr (prepare parse_object df) ->
  In (record dr) (rows df)
  /\ current_speed dr
     = replace_sentinel (to_numeric parse_object (dict_get "current_speed" (record dr)))
  /\ exists f, current_speed dr = Num f
               /\ PrimFloat.eqb f (-1)%float = false
               /\ PrimFloat.eqb f f = true
               /\ is_congested dr = PrimFloat.ltb f 20%float.
Proof.
  unfold prepare, speed_column. intros Hin.
  apply in_map_iff in Hin. destruct Hin as ([r c] & <- & Hin).
  apply filter_In in Hin. destruct Hin as [Hin Hna].
  apply in_map_iff in Hin. destruct Hin as (r' & Heq & Hr').
  injection Heq as -> <-. cbn [record current_speed is_congested fst snd] in *.
  split; [exact Hr'|]. split; [reflexivity|].
  destruct (replace_sentinel _) as [|f] eqn:E; [discriminate Hna|].
  exists f. destruct (replace_sentinel_num _ _ E) as [_ Hne].
  repeat split; [exact Hne | exact Hna].
Qed.

End DashboardFacts.

(** C8. Sentinel handling: whatever the table holds, a stored reading whose
    current_speed is numerically equal to -1 (the integer -1 and the float
    -1.0 are) has the null [pd.NA] as its speed after line 166 and is absent
    from the frame the dashboard works on; every row of that frame has a
    speed that is a number other than -1.  In the scenario of speeds 15, -1,
    25 the table holds 3 rows, the second of which has the null speed after
    line 166, and the dashboard keeps the other two. *)
Theorem sentinel_is_null (parse_object : pyval -> float) :
  (forall v : pyval,
      is_sentinel v = true ->
      PrimFloat.eqb (to_numeric parse_object v) (-1)%float = true)
  /\ (forall (df : frame) (r : pydict),
         In r (rows df) ->
         PrimFloat.eqb (to_numeric parse_object (dict_get "current_speed" r))
                       (-1)%float = true ->
         In (r, NA) (speed_column parse_object df)
         /\ forall dr, In dr (prepare parse_object df) -> record dr <> r)
  /\ (forall (df : frame) (dr : dash_row),
         In dr (prepare parse_object df) ->
         exists f, current_speed dr = Num f
                   /\ PrimFloat.eqb f (-1)%float = false)
  /\ (map (dict_get "current_speed")
          (realtime_rows (snd (consume_realtime_data scenario)))
      = [PInt 15; PInt (-1); PInt 25]
      /\ (exists t,
             db (snd (consume_realtime_data scenario)) !! "realtime_traffic_data"
             = Some t
             /\ length (rows t) = 3%nat
             /\ map snd (speed_column parse_object t)
                = [Num 15%float; NA; Num 25%float])
      /\ fst (dashboard_frame parse_object (snd (consume_realtime_data scenario)))
         = Ok [ DashRow (normalize (reading 15)) (Num 15%float) true;
                DashRow (normalize (reading 25)) (Num 25%float) false ]).
Proof.
  split; [exact (sentinel_numeric parse_object)|].
  split; [|split].
  - intros df r Hr Hs. split.
    + unfold speed_column. apply in_map_iff. exists r. split; [|exact Hr].
      rewrite (sentinel_replaced _ Hs). reflexivity.
    + intros dr Hdr Heq.
      destruct (prepare_rows parse_object df dr Hdr) as (_ & Hsp & f & Hf & _).
      rewrite Heq, (sentinel_replaced _ Hs) in Hsp.
      congruence.
  - intros df dr Hdr.
    destruct (prepare_rows parse_object df dr Hdr) as (_ & _ & f & Hf & Hne & _).
    exists f. split; [exact Hf | exact Hne].
  - split; [vm_compute; reflexivity|]. split.
    + eexists. split; [vm_compute; reflexivity|].
      split; vm_compute; reflexivity.
    + vm_compute. reflexivity.
Qed.

Lemma sentinel_is_null_witness :
  is_sentinel (dict_get "current_speed" (normalize (reading (-1)))) = true
  /\ In (normalize (reading (-1)), NA)
        (speed_column (fun _ => nan)
           (Frame fields [normalize (reading 15); normalize (reading (-1))])).
Proof.
  split; [reflexivity|].
  destruct (sentinel_is_null (fun _ => nan)) as (Hnum & H & _).
  destruct (H (Frame fields [normalize (reading 15); normalize (reading (-1))])
              (normalize (reading (-1)))) as (Hin & _).
  - right. left. reflexivity.
  - apply Hnum. reflexivity.
  - exact Hin.
Defined.


(** * Further properties *)

(** ** More on the consume cycle *)

(** X1. Idle termination: when database and broker are reachable and the
    topic holds fewer than 200 messages, all of which can be stored, one
    cycle stores the row of every message, in topic order, returns
    normally and prints the table line only, not the quota line. *)
Theorem idle_termination (w : world) :
  db_up w = true ->
  broker_up w = true ->
  (length (topic w) < 200)%nat ->
  Forall (fun m => storable w m = true) (topic w) ->
  fst (consume_realtime_data w) = Ok tt
  /\ realtime_rows (snd (consume_realtime_data w))
     = (realtime_rows w ++ map record_of (topic w))%list
  /\ position (snd (consume_realtime_data w)) = length (topic w)
  /\ stdout (snd (consume_realtime_data w))
     = (stdout w ++ ["✅ realtime_traffic_data table ensured"])%list.
Proof.
  intros Hdb Hbr Hlen Hall.
  assert (Hfirst : firstn 200 (topic w) = topic w)
    by (apply firstn_all2; lia).
  destruct (consume_stores w Hdb Hbr) as (w' & Hrun & Hrows & Hpos & Hout & _).
  { eapply List.Forall_impl; [|exact Hall].
    intros m Hm. exact (storable_deserializes w m Hm). }
  { rewrite Hfirst. exact Hall. }
  rewrite Hrun. cbn [fst snd]. rewrite Hfirst in Hrows, Hpos.
  split; [reflexivity|]. split; [exact Hrows|]. split; [exact Hpos|].
  rewrite Hout. destruct (Nat.leb_spec 200 (length (topic w))); [lia|].
  reflexivity.
Qed.

Lemma idle_termination_witness :
  length (realtime_rows (snd (consume_realtime_data (backlog 5)))) = 5%nat
  /\ stdout (snd (consume_realtime_data (backlog 5)))
     = ["✅ realtime_traffic_data table ensured"].
Proof.
  destruct (idle_termination (backlog 5)) as (_ & Hrows & _ & Hout).
  - reflexivity.
  - reflexivity.
  - apply Nat.ltb_lt. reflexivity.
  - repeat constructor.
  - split; [rewrite Hrows; reflexivity | exact Hout].
Defined.

(** X2. Append only, within the quota: whatever the world and however the
    cycle ends, the rows realtime_traffic_data held before are still
    there, in place, and what was added is the rows of the first [k]
    messages of the topic, in topic order, for some [k] of at most 200. *)
Theorem consume_appends (w : world) :
  exists k : nat,
    (k <= 200)%nat
    /\ realtime_rows (snd (consume_realtime_data w))
       = (realtime_rows w ++ map record_of (firstn k (topic w)))%list.
Proof.
  destruct (db_up w) eqn:Hdb.
  2:{ exists 0%nat. rewrite (consume_db_down w Hdb). cbn [snd firstn map].
      rewrite app_nil_r. split; [lia | reflexivity]. }
  destruct (broker_up w) eqn:Hbr.
  2:{ exists 0%nat. rewrite (consume_broker_down w Hdb Hbr). cbn [snd firstn map].
      rewrite app_nil_r. split; [lia|].
      apply realtime_rows_ensured. reflexivity. }
  destruct (ensured_table w) as (t & Ht & Ht' & Hrows).
  destruct (consume_loop_trace (topic w) 0 0 (ready w) t) as
    (r & w' & k & Hrun & Hdb' & _ & Hend).
  { lia. }
  { exact Ht. }
  rewrite (consume_run w w' r Hdb Hbr Hrun). cbn [snd].
  exists k. split.
  - destruct Hend as [(_ & -> & _)|[(_ & _ & Hk & _)|(e & _ & Hk & _)]]; lia.
  - apply (realtime_rows_added w _ t _ Ht' Hrows).
    destruct r as [[]|e]; exact Hdb'.
Qed.

(** X3. What a cycle leaves alone: whatever the world and however the
    cycle ends, every table other than realtime_traffic_data, the topic,
    the API and the CSV files are as before. *)
Theorem consume_touches_one_table (w : world) (name : string) :
  name <> "realtime_traffic_data" ->
  db (snd (consume_realtime_data w)) !! name = db w !! name
  /\ topic (snd (consume_realtime_data w)) = topic w
  /\ csv_files (snd (consume_realtime_data w)) = csv_files w
  /\ api_rows (snd (consume_realtime_data w)) = api_rows w.
Proof.
  intros Hne.
  destruct (db_up w) eqn:Hdb.
  2:{ rewrite (consume_db_down w Hdb). cbn. tauto. }
  destruct (broker_up w) eqn:Hbr.
  2:{ rewrite (consume_broker_down w Hdb Hbr).
      cbn [snd db topic csv_files api_rows set_stdout set_db].
      split; [apply ensured_elsewhere, Hne | tauto]. }
  destruct (ensured_table w) as (t & Ht & _).
  destruct (consume_loop_trace (topic w) 0 0 (ready w) t) as
    (r & w' & k & Hrun & Hdb' & Hsame & _).
  { lia. }
  { exact Ht. }
  assert (Hw' : db w' !! name = db w !! name
                /\ topic w' = topic w /\ csv_files w' = csv_files w
                /\ api_rows w' = api_rows w).
  { rewrite Hdb'. rewrite lookup_insert_ne by congruence.
    destruct Hsame as (Hapi & Hcsv & _ & _ & Htopic & _).
    split; [exact (ensured_elsewhere (db w) name Hne)|]. tauto. }
  rewrite (consume_run w w' r Hdb Hbr Hrun). cbn [snd].
  destruct r as [[]|e]; exact Hw'.
Qed.

Lemma consume_touches_one_table_witness :
  db (snd (consume_realtime_data (set_topic [JsonDoc (PDict (reading 15))] archive)))
     !! "historical_traffic"
  = Some (counts [7; 8; 9]%Z).
Proof.
  destruct (consume_touches_one_table
              (set_topic [JsonDoc (PDict (reading 15))] archive)
              "historical_traffic") as (H & _).
  - discriminate.
  - rewrite H. vm_compute. reflexivity.
Defined.

(** X4. No offsets are kept between cycles: the consumer is built without
    a group id and starts at the earliest offset, so, on a topic whose
    messages all deserialize, a second cycle reads the same messages again
    and stores their rows a second time. *)
Theorem second_cycle_duplicates (w : world) :
  db_up w = true ->
  broker_up w = true ->
  Forall (fun m => deserializes m = true) (topic w) ->
  Forall (fun m => storable w m = true) (firstn 200 (topic w)) ->
  realtime_rows (snd (consume_realtime_data (snd (consume_realtime_data w))))
  = (realtime_rows w ++ map record_of (firstn 200 (topic w))
                     ++ map record_of (firstn 200 (topic w)))%list.
Proof.
  intros Hdb Hbr Hdes Hall.
  destruct (consume_stores w Hdb Hbr Hdes Hall)
    as (w1 & Hrun & Hrows & _ & _ & Htopic & Hdb1 & Hbr1 & Hacc & _).
  rewrite Hrun. cbn [snd].
  destruct (consume_stores w1) as (w2 & Hrun2 & Hrows2 & _).
  { rewrite Hdb1. exact Hdb. }
  { rewrite Hbr1. exact Hbr. }
  { rewrite Htopic. exact Hdes. }
  { rewrite Htopic. eapply List.Forall_impl; [|exact Hall].
    intros m Hm. rewrite (storable_same_server w w1 m Hacc). exact Hm. }
  rewrite Hrun2. cbn [snd]. rewrite Hrows2, Hrows, Htopic, <- app_assoc.
  reflexivity.
Qed.

Lemma second_cycle_duplicates_witness :
  length (realtime_rows
            (snd (consume_realtime_data (snd (consume_realtime_data (backlog 3))))))
  = 6%nat.
Proof.
  rewrite (second_cycle_duplicates (backlog 3)).
  - reflexivity.
  - reflexivity.
  - reflexivity.
  - repeat constructor.
  - repeat constructor.
Defined.

(** X5. The first message the loop body fails on ends the cycle: when
    database and broker are reachable, every message on the topic
    deserializes, and the topic starts with fewer than 200 messages that
    can be stored, followed by one that is not a JSON object or whose row
    the server refuses, the cycle stores exactly the rows of the messages
    before it, prints the table line and one error line, and returns
    normally; no later message is stored. *)
Theorem first_failure_ends_cycle (w : world) (good rest : list payload)
        (bad : payload) :
  db_up w = true ->
  broker_up w = true ->
  topic w = (good ++ bad :: rest)%list ->
  (length good < 200)%nat ->
  Forall (fun m => deserializes m = true) (topic w) ->
  Forall (fun m => storable w m = true) good ->
  storable w bad = false ->
  fst (consume_realtime_data w) = Ok tt
  /\ realtime_rows (snd (consume_realtime_data w))
     = (realtime_rows w ++ map record_of good)%list
  /\ exists text,
       stdout (snd (consume_realtime_data w))
       = (stdout w ++ ["✅ realtime_traffic_data table ensured";
                       kafka_line text])%list.
Proof.
  intros Hdb Hbr Htopic Hlen Hdes Hall Hbad.
  destruct (failure_of w bad) as [e|] eqn:Hf.
  2:{ apply storable_failure in Hf. congruence. }
  destruct (ensured_table w) as (t & Ht & Ht' & Hrows).
  destruct (consume_loop_stops good bad rest 0 0 (ready w) t e) as
    (w' & Hrun & Hdb' & Hout & _).
  { lia. }
  { exact Ht. }
  { rewrite <- Htopic. exact Hdes. }
  { exact Hall. }
  { exact Hf. }
  rewrite <- Htopic in Hrun.
  rewrite (consume_run w w' _ Hdb Hbr Hrun). cbn [fst snd].
  split; [reflexivity|]. split.
  - exact (realtime_rows_added w _ t _ Ht' Hrows Hdb').
  - exists (exn_str e). cbn [stdout set_open_conns set_stdout]. rewrite Hout.
    cbn [stdout ready set_open_conns set_position set_stdout].
    rewrite <- app_assoc. reflexivity.
Qed.

Lemma first_failure_ends_cycle_witness :
  realtime_rows (snd (consume_realtime_data array_after_two))
  = [normalize (reading 15); normalize (reading 25)]
  /\ realtime_rows (snd (consume_realtime_data (bulk array_after_two)))
     = [normalize (reading 15); normalize (reading 25)].
Proof.
  destruct (first_failure_ends_cycle
              array_after_two
              [JsonDoc (PDict (reading 15)); JsonDoc (PDict (reading 25))]
              [JsonDoc (PDict (reading 35))]
              (JsonDoc (PList [PInt 1])))
    as (_ & Hrows & _).
  - reflexivity.
  - reflexivity.
  - reflexivity.
  - apply Nat.ltb_lt. reflexivity.
  - repeat constructor.
  - repeat constructor.
  - reflexivity.
  - destruct (first_failure_ends_cycle
                (bulk array_after_two)
                [JsonDoc (PDict (reading 15)); JsonDoc (PDict (reading 25))]
                [JsonDoc (PDict (reading 35))]
                (JsonDoc (PList [PInt 1])))
      as (_ & Hrows' & _).
    + reflexivity.
    + reflexivity.
    + reflexivity.
    + apply Nat.ltb_lt. reflexivity.
    + repeat constructor.
    + repeat constructor.
    + reflexivity.
    + split; [rewrite Hrows | rewrite Hrows']; reflexivity.
Defined.

(** X6. Services out of reach.  With the database out of reach a cycle
    prints one error line and changes nothing else: no table, no
    connection, no read of the topic.  With the database reachable and the
    broker out of reach the table is created all the same (line 98 runs
    before the consumer is built), its rows are as before, nothing is read
    and no connection stays open. *)
Theorem unreachable_services (w : world) :
  (db_up w = false ->
   db (snd (consume_realtime_data w)) = db w
   /\ open_conns (snd (consume_realtime_data w)) = open_conns w
   /\ position (snd (consume_realtime_data w)) = position w
   /\ outcome consume_realtime_data w
      = (Ok tt, (stdout w ++ [kafka_error OperationalError])%list))
  /\ (db_up w = true -> broker_up w = false ->
      is_Some (db (snd (consume_realtime_data w)) !! "realtime_traffic_data")
      /\ realtime_rows (snd (consume_realtime_data w)) = realtime_rows w
      /\ open_conns (snd (consume_realtime_data w)) = open_conns w
      /\ position (snd (consume_realtime_data w)) = position w
      /\ outcome consume_realtime_data w
         = (Ok tt, (stdout w ++ ["✅ realtime_traffic_data table ensured";
                                 kafka_error NoBrokersAvailable])%list)).
Proof.
  split.
  - intros Hdb. unfold outcome. rewrite (consume_db_down w Hdb). cbn. tauto.
  - intros Hdb Hbr. unfold outcome. rewrite (consume_broker_down w Hdb Hbr).
    cbn [fst snd db open_conns position stdout set_stdout set_db].
    destruct (ensured_lookup (db w)) as (t & Ht & Hrows).
    split; [rewrite Ht; eexists; reflexivity|].
    split; [apply realtime_rows_ensured; reflexivity|]. tauto.
Qed.

Lemma unreachable_services_witness :
  db (snd (consume_realtime_data db_out)) = ∅
  /\ is_Some (db (snd (consume_realtime_data broker_out)) !! "realtime_traffic_data")
  /\ open_conns (snd (consume_realtime_data broker_out)) = 0%nat.
Proof.
  destruct (unreachable_services db_out) as (Hd & _).
  destruct (unreachable_services broker_out) as (_ & Hb).
  destruct (Hd eq_refl) as (Hdb & _).
  destruct (Hb eq_refl eq_refl) as (Htab & _ & Hoc & _).
  split; [exact Hdb|]. split; [exact Htab | exact Hoc].
Defined.

(** ** More on the producer *)

(** X7. No deduplication: when the snapshot is fetched and the broker
    takes every row, publishing twice puts the whole snapshot on the topic
    twice, each time in source order, after what the topic held. *)
Theorem republish_duplicates (w : world) (df : list pydict) :
  api_rows w = Some df ->
  broker_up w = true ->
  Forall (fun row => broker_accepts w (PDict row) = true) df ->
  topic (snd (produce_realtime_data (snd (produce_realtime_data w))))
  = (topic w ++ wire df ++ wire df)%list.
Proof.
  intros Hapi Hbr Hall.
  rewrite (produce_all w df Hapi Hbr Hall). cbn [snd].
  rewrite produce_all with (df := df).
  - cbn [snd topic set_stdout set_topic]. rewrite <- app_assoc. reflexivity.
  - exact Hapi.
  - exact Hbr.
  - exact Hall.
Qed.

Lemma republish_duplicates_witness :
  topic (snd (produce_realtime_data
                (snd (produce_realtime_data (serving [reading 15; reading 25])))))
  = [ JsonDoc (PDict (reading 15)); JsonDoc (PDict (reading 25));
      JsonDoc (PDict (reading 15)); JsonDoc (PDict (reading 25)) ].
Proof.
  rewrite (republish_duplicates (serving [reading 15; reading 25])
                                [reading 15; reading 25]).
  - reflexivity.
  - reflexivity.
  - reflexivity.
  - repeat constructor.
Defined.

(** X8. What the producer leaves alone: in every world and on every exit
    path, one call changes neither a table, nor the open connections, nor
    the position of the consumer, nor the files, and never removes or
    reorders a message of the topic. *)
Theorem produce_touches_topic_only (w : world) :
  db (snd (produce_realtime_data w)) = db w
  /\ open_conns (snd (produce_realtime_data w)) = open_conns w
  /\ position (snd (produce_realtime_data w)) = position w
  /\ csv_files (snd (produce_realtime_data w)) = csv_files w
  /\ firstn (length (topic w)) (topic (snd (produce_realtime_data w))) = topic w.
Proof.
  rewrite produce_run. cbn [snd db open_conns position csv_files topic
                            set_stdout set_topic].
  repeat split.
  rewrite firstn_app, Nat.sub_diag, firstn_all. cbn [firstn].
  apply app_nil_r.
Qed.

(** X9. What reaches the topic.  When [producer.send] itself raises on a
    row after the broker took the rows before it, exactly those rows are
    on the topic, in source order, no later row is sent, and the only
    line printed is the failure line.  When no [send] raises, the loop
    runs to its end even if the broker does not take some row: the topic
    gains, in source order, exactly the rows the broker takes, the rows
    after a lost one included, and the success line is printed. *)
Theorem partial_publication (w : world) :
  (forall sent row rest,
      api_rows w = Some (sent ++ row :: rest)%list ->
      broker_up w = true ->
      Forall (fun r => broker_accepts w (PDict r) = true) sent ->
      refused w row = true ->
      topic (snd (produce_realtime_data w)) = (topic w ++ wire sent)%list
      /\ exists text,
           outcome produce_realtime_data w
           = (Ok tt, (stdout w ++ [failed_with text])%list))
  /\ (forall df,
         api_rows w = Some df ->
         broker_up w = true ->
         existsb (refused w) df = false ->
         topic (snd (produce_realtime_data w))
         = (topic w ++ wire (List.filter (delivered w) df))%list
         /\ outcome produce_realtime_data w
            = (Ok tt, (stdout w ++ [sent_line])%list)).
Proof.
  unfold outcome. rewrite produce_run.
  cbn [fst snd topic stdout set_stdout set_topic].
  unfold published, produce_line. split.
  - intros sent row rest -> -> Hsent Hrow.
    destruct (all_delivered w sent Hsent) as (_ & Hnone & Hfilter).
    destruct (stops_at_refusal w sent rest row Hnone Hrow) as [-> ->].
    rewrite Hfilter. split; [reflexivity|].
    exists (exn_str KafkaError). reflexivity.
  - intros df -> -> Hnone. rewrite Hnone, (none_refused w df Hnone).
    split; reflexivity.
Qed.

Lemma partial_publication_witness :
  topic (snd (produce_realtime_data
                (narrow [reading 15; wide_reading; reading 25])))
  = [JsonDoc (PDict (reading 15))]
  /\ topic (snd (produce_realtime_data
                   (lossy [reading 15; wide_reading; reading 25])))
     = [JsonDoc (PDict (reading 15)); JsonDoc (PDict (reading 25))].
Proof.
  destruct (partial_publication (narrow [reading 15; wide_reading; reading 25]))
    as (Hstop & _).
  destruct (partial_publication (lossy [reading 15; wide_reading; reading 25]))
    as (_ & Hloss).
  destruct (Hstop [reading 15] wide_reading [reading 25]) as (Htopic & _).
  - reflexivity.
  - reflexivity.
  - repeat constructor.
  - reflexivity.
  - destruct (Hloss [reading 15; wide_reading; reading 25] eq_refl eq_refl eq_refl)
      as (Htopic' & _).
    split; [exact Htopic | exact Htopic'].
Defined.

(** ** More on normalization *)

Section LowerFacts.

Lemma lower_ascii_idempotent (c : ascii) :
  lower_ascii (lower_ascii c) = lower_ascii c.
Proof.
  destruct c as [b0 b1 b2 b3 b4 b5 b6 b7].
  destruct b0, b1, b2, b3, b4, b5, b6, b7; reflexivity.
Qed.

Lemma lower_idempotent (s : string) : lower (lower s) = lower s.
Proof.
  induction s as [|c s IH]; cbn [lower]; [reflexivity|].
  rewrite lower_ascii_idempotent, IH. reflexivity.
Qed.

Lemma dict_set_keys (k : string) (v : pyval) (d : pydict) :
  map fst (dict_set k v d)
  = if existsb (String.eqb k) (map fst d) then map fst d
    else (map fst d ++ [k])%list.
Proof.
  induction d as [|[k' v'] d IH]; cbn [dict_set map fst existsb app].
  - reflexivity.
  - destruct (String.eqb k k') eqn:E; cbn [map fst orb].
    + apply String.eqb_eq in E. subst k'. reflexivity.
    + rewrite IH. destruct (existsb (String.eqb k) (map fst d)); reflexivity.
Qed.

Lemma existsb_eqb_In (k : string) (l : list string) :
  existsb (String.eqb k) l = true <-> In k l.
Proof.
  rewrite existsb_exists. split.
  - intros (x & Hx & E). apply String.eqb_eq in E. subst x. exact Hx.
  - intros H. exists k. split; [exact H | apply String.eqb_refl].
Qed.

(** The dict comprehension of line 113 from any dict with distinct
    lowercase keys. *)
Lemma lower_fold_keys (items acc : pydict) :
  List.NoDup (map fst acc) ->
  (forall k, In k (map fst acc) -> lower k = k) ->
  let d := fold_left (fun d kv => dict_set (lower (fst kv)) (snd kv) d) items acc in
  List.NoDup (map fst d)
  /\ (forall k, In k (map fst d) -> lower k = k)
  /\ (forall k, In k (map fst d) <->
                In k (map fst acc) \/ In k (map lower (map fst items))).
Proof.
  revert acc. induction items as [|[k0 v0] items IH]; intros acc Hnd Hlow;
    cbn [fold_left map fst snd].
  - split; [exact Hnd|]. split; [exact Hlow|]. cbn. tauto.
  - assert (Hkeys := dict_set_keys (lower k0) v0 acc).
    destruct (existsb (String.eqb (lower k0)) (map fst acc)) eqn:E.
    + apply existsb_eqb_In in E.
      destruct (IH (dict_set (lower k0) v0 acc)) as (H1 & H2 & H3).
      { rewrite Hkeys. exact Hnd. }
      { rewrite Hkeys. exact Hlow. }
      split; [exact H1|]. split; [exact H2|].
      intros k. rewrite H3, Hkeys. cbn [In]. split.
      * tauto.
      * intros [H|[<-|H]]; tauto.
    + assert (Hnot : ~ In (lower k0) (map fst acc)).
      { intros Hin. apply existsb_eqb_In in Hin. congruence. }
      destruct (IH (dict_set (lower k0) v0 acc)) as (H1 & H2 & H3).
      { rewrite Hkeys. apply List.NoDup_app; [exact Hnd | repeat constructor; cbn; tauto |].
        intros x Hx [<-|[]]. exact (Hnot Hx). }
      { rewrite Hkeys. intros k Hk. apply in_app_or in Hk.
        destruct Hk as [Hk|[<-|[]]]; [exact (Hlow k Hk) | apply lower_idempotent]. }
      split; [exact H1|]. split; [exact H2|].
      intros k. rewrite H3, Hkeys, in_app_iff. cbn [In]. tauto.
Qed.

Lemma lower_keys_by_items (row : pydict) :
  lower_keys row
  = fold_left (fun d kv => dict_set (fst kv) (snd kv) d) (map lower_item row) [].
Proof.
  unfold lower_keys. generalize (@nil (string * pyval)) as acc.
  induction row as [|kv row IH]; intros acc; cbn [fold_left map]; [reflexivity|].
  rewrite IH. reflexivity.
Qed.

End LowerFacts.

(** X10. For a message whose keys are ASCII strings, the dict of line 113
    has distinct keys, all lowercase, and they are exactly the lowercased
    keys of the message: keys that differ only by case are merged into
    one entry. *)
Theorem lowered_dict_keys (row : pydict) :
  Forall (fun kv => ascii_only (fst kv) = true) row ->
  List.NoDup (map fst (lower_keys row))
  /\ (forall k, In k (map fst (lower_keys row)) -> lower k = k)
  /\ (forall k, In k (map fst (lower_keys row)) <->
                In k (map lower (map fst row))).
Proof.
  intros _.
  destruct (lower_fold_keys row []) as (H1 & H2 & H3).
  - constructor.
  - intros k [].
  - split; [exact H1|]. split; [exact H2|].
    intros k. rewrite (H3 k). cbn. tauto.
Qed.

Lemma lowered_dict_keys_witness :
  map fst (lower_keys [("Street", PStr "a"); ("ID", PInt 1); ("STREET", PStr "b")])
  = ["street"; "id"]
  /\ lower "street" = "street".
Proof.
  split; [reflexivity|].
  destruct (lowered_dict_keys
              [("Street", PStr "a"); ("ID", PInt 1); ("STREET", PStr "b")])
    as (_ & H & _).
  - repeat constructor.
  - apply H. left. reflexivity.
Defined.

(** X11. Normalization is blind to the case of the keys: two messages
    whose items agree once the keys are lowercased have the same 14-field
    record; in particular a message and the same message with lowercased
    keys do. *)
Theorem normalize_ignores_case (row1 row2 : pydict) :
  map lower_item row1 = map lower_item row2 ->
  normalize row1 = normalize row2
  /\ normalize (map lower_item row1) = normalize row1.
Proof.
  intros H.
  assert (Hdep : forall r r', map lower_item r = map lower_item r' ->
                              normalize r = normalize r').
  { intros r r' Hr. unfold normalize, normalize_values.
    rewrite (lower_keys_by_items r), (lower_keys_by_items r'), Hr. reflexivity. }
  split; [exact (Hdep _ _ H)|].
  apply Hdep. rewrite map_map. apply map_ext. intros [k v].
  unfold lower_item. cbn [fst snd]. rewrite lower_idempotent. reflexivity.
Qed.

Lemma normalize_ignores_case_witness :
  normalize [("STREET", PStr "Main St"); ("Current_Speed", PInt 30)]
  = normalize [("street", PStr "Main St"); ("CURRENT_SPEED", PInt 30)].
Proof.
  destruct (normalize_ignores_case
              [("STREET", PStr "Main St"); ("Current_Speed", PInt 30)]
              [("street", PStr "Main St"); ("CURRENT_SPEED", PInt 30)])
    as (H & _).
  - reflexivity.
  - exact H.
Defined.

(** ** More on the table and the batch load *)

(** X12. The table is ensured idempotently: with the database reachable,
    [ensure_realtime_table_exists] returns normally, keeps the rows of an
    existing table (and every table) as they are, creates a missing table
    empty with exactly the 14 columns the consumer inserts into, leaves no
    connection open, and a second call changes no table. *)
Theorem ensure_is_idempotent (w : world) :
  db_up w = true ->
  fst (ensure_realtime_table_exists w) = Ok tt
  /\ (forall t, db w !! "realtime_traffic_data" = Some t ->
                db (snd (ensure_realtime_table_exists w)) = db w)
  /\ (db w !! "realtime_traffic_data" = None ->
      db (snd (ensure_realtime_table_exists w))
      = <["realtime_traffic_data" := Frame fields []]> (db w))
  /\ realtime_rows (snd (ensure_realtime_table_exists w)) = realtime_rows w
  /\ open_conns (snd (ensure_realtime_table_exists w)) = open_conns w
  /\ db (snd (ensure_realtime_table_exists (snd (ensure_realtime_table_exists w))))
     = db (snd (ensure_realtime_table_exists w)).
Proof.
  intros Hup. rewrite (ensure_up w Hup).
  cbn [fst snd db open_conns set_stdout set_db].
  split; [reflexivity|]. split.
  { intros t Ht. unfold ensured_db. rewrite Ht. reflexivity. }
  split.
  { intros Ht. unfold ensured_db. rewrite Ht. reflexivity. }
  split.
  { apply realtime_rows_ensured. reflexivity. }
  split; [reflexivity|].
  rewrite ensure_up by exact Hup. cbn [snd db set_stdout set_db].
  destruct (ensured_lookup (db w)) as (t & Ht & _).
  unfold ensured_db at 1. rewrite Ht. reflexivity.
Qed.

Lemma ensure_is_idempotent_witness :
  db (snd (ensure_realtime_table_exists calm))
  = <["realtime_traffic_data" := Frame fields []]> ∅
  /\ db (snd (ensure_realtime_table_exists archive)) = db archive.
Proof.
  destruct (ensure_is_idempotent calm eq_refl) as (_ & _ & Hnew & _).
  destruct (ensure_is_idempotent archive eq_refl) as (_ & Hold & _).
  split.
  - apply Hnew. reflexivity.
  - apply (Hold (Frame fields [normalize (reading 30)])). vm_compute. reflexivity.
Defined.

(** X13. A missing CSV file stops the batch load where it stands: with
    the database reachable, the tables of the files listed before the
    missing one have already been replaced by their files, every other
    table, that of the missing file and those listed after it included,
    is as before, FileNotFoundError leaves the function (it has no
    handler) and the line 'Batch data loaded' is not printed. *)
Theorem batch_load_stops_at_missing_file
        (w : world) (done rest : list (string * string)) (t p : string) :
  files = (done ++ (t, p) :: rest)%list ->
  db_up w = true ->
  (forall table path, In (table, path) done -> is_Some (csv_files w !! path)) ->
  csv_files w !! p = None ->
  outcome load_csv_to_postgres w = (Raise FileNotFoundError, stdout w)
  /\ (forall table path, In (table, path) done ->
        db (snd (load_csv_to_postgres w)) !! table = csv_files w !! path)
  /\ (forall name, ~ In name (map fst done) ->
        db (snd (load_csv_to_postgres w)) !! name = db w !! name).
Proof.
  intros Hfiles Hup Hread Hmiss. unfold outcome. rewrite load_run, Hfiles.
  destruct (load_effect_prefix w done t p rest (db w) Hup Hread Hmiss) as [-> ->].
  cbn [fst snd stdout db set_db set_pooled].
  assert (Hnd : List.NoDup (map fst done)).
  { pose proof files_distinct as H. rewrite Hfiles, map_app in H.
    exact (List.NoDup_app_remove_r _ _ H). }
  split; [reflexivity|]. split.
  - intros table path Hin.
    exact (load_effect_inside w done (db w) Hup Hnd Hread table path Hin).
  - intros name Hname. apply load_effect_elsewhere. exact Hname.
Qed.

Lemma batch_load_stops_at_missing_file_witness :
  db (snd (load_csv_to_postgres torn_archive)) !! "historical_traffic"
  = Some (counts [1; 2]%Z)
  /\ db (snd (load_csv_to_postgres torn_archive)) !! "speed_camera_violations"
     = Some (counts [7; 8; 9]%Z)
  /\ db (snd (load_csv_to_postgres torn_archive)) !! "traffic_crashes"
     = Some (counts [0]%Z).
Proof.
  destruct (batch_load_stops_at_missing_file
              torn_archive
              [ ("historical_traffic", "data/historical_traffic.csv");
                ("red_light_violations", "data/red_light_violations.csv") ]
              [ ("traffic_crashes", "data/traffic_crashes.csv") ]
              "speed_camera_violations" "data/speed_camera_violations.csv")
    as (_ & Hin & Hout).
  - reflexivity.
  - reflexivity.
  - intros table path [Heq|[Heq|[]]]; injection Heq as <- <-;
      eexists; vm_compute; reflexivity.
  - vm_compute. reflexivity.
  - split; [|split].
    + rewrite (Hin "historical_traffic" "data/historical_traffic.csv")
        by (left; reflexivity).
      vm_compute. reflexivity.
    + rewrite Hout by (intros [H|[H|[]]]; discriminate H).
      vm_compute. reflexivity.
    + rewrite Hout by (intros [H|[H|[]]]; discriminate H).
      vm_compute. reflexivity.
Defined.

(** X14. The batch load is idempotent: after a run that completes, a
    second run completes too and leaves every table as the first run left
    it. *)
Theorem batch_load_is_idempotent (w : world) :
  fst (load_csv_to_postgres w) = Ok tt ->
  fst (load_csv_to_postgres (snd (load_csv_to_postgres w))) = Ok tt
  /\ db (snd (load_csv_to_postgres (snd (load_csv_to_postgres w))))
     = db (snd (load_csv_to_postgres w)).
Proof.
  rewrite (load_run w).
  destruct (load_result w files) as [[]|e] eqn:Hres; [|discriminate].
  intros _. cbn [snd].
  set (w1 := set_stdout _ _).
  destruct (load_same_files w w1 files eq_refl eq_refl) as [Hr He].
  rewrite (load_run w1), Hr, Hres. cbn [fst snd db set_stdout set_db set_pooled].
  split; [reflexivity|]. rewrite He. subst w1.
  cbn [db set_stdout set_db set_pooled].
  apply load_result_ok in Hres; [|discriminate]. destruct Hres as [Hup Hread].
  apply map_eq. intros name.
  destruct (in_dec string_dec name (map fst files)) as [Hin|Hout].
  - apply in_map_iff in Hin. destruct Hin as ([t p] & <- & Hin). cbn [fst].
    rewrite !(load_effect_inside w files _ Hup files_distinct Hread t p Hin).
    reflexivity.
  - rewrite !load_effect_elsewhere by exact Hout. reflexivity.
Qed.

Lemma batch_load_is_idempotent_witness :
  db (snd (load_csv_to_postgres (snd (load_csv_to_postgres archive))))
  = db (snd (load_csv_to_postgres archive)).
Proof.
  destruct (batch_load_is_idempotent archive) as (_ & H).
  - reflexivity.
  - exact H.
Defined.

(** X15. When the batch load completes: it returns normally exactly when
    the database is reachable and each of the four CSV files can be read;
    only then does it print 'Batch data loaded', and otherwise it prints
    nothing and raises. *)
Theorem batch_load_completes_iff (w : world) :
  (fst (load_csv_to_postgres w) = Ok tt
   <-> db_up w = true
       /\ forall table path, In (table, path) files ->
                             is_Some (csv_files w !! path))
  /\ (fst (load_csv_to_postgres w) = Ok tt ->
      stdout (snd (load_csv_to_postgres w))
      = (stdout w ++ ["✅ Batch data loaded"])%list)
  /\ (fst (load_csv_to_postgres w) <> Ok tt ->
      stdout (snd (load_csv_to_postgres w)) = stdout w
      /\ exists e, fst (load_csv_to_postgres w) = Raise e).
Proof.
  rewrite (load_run w).
  assert (Hiff := load_result_ok w files ltac:(discriminate)).
  destruct (load_result w files) as [[]|e];
    cbn [fst snd stdout set_stdout set_db set_pooled].
  - split; [|split].
    + rewrite <- Hiff. tauto.
    + reflexivity.
    + intros H. congruence.
  - split; [|split].
    + rewrite <- Hiff. split; discriminate.
    + discriminate.
    + intros _. split; [reflexivity|]. exists e. reflexivity.
Qed.

Lemma batch_load_completes_iff_witness :
  fst (load_csv_to_postgres archive) = Ok tt
  /\ fst (load_csv_to_postgres torn_archive) <> Ok tt
  /\ stdout (snd (load_csv_to_postgres torn_archive)) = [].
Proof.
  destruct (batch_load_completes_iff archive) as ((_ & Hok) & _).
  destruct (batch_load_completes_iff torn_archive) as (_ & _ & Hfail).
  split.
  - apply Hok. split; [reflexivity|].
    intros table path [H|[H|[H|[H|[]]]]]; injection H as <- <-;
      eexists; vm_compute; reflexivity.
  - assert (Hne : fst (load_csv_to_postgres torn_archive) <> Ok tt)
      by (vm_compute; discriminate).
    split; [exact Hne|]. exact (proj1 (Hfail Hne)).
Defined.

(** ** More on main and the dashboard *)

Section DashboardOrder.

Variable parse_object : pyval -> float.

Lemma prepare_by_rows (cols cols' : list string) (rs : list pydict) :
  prepare parse_object (Frame cols rs) = prepare parse_object (Frame cols' rs).
Proof. reflexivity. Qed.

Lemma prepare_is_filter (rs : list pydict) (cols : list string) :
  prepare parse_object (Frame cols rs)
  = map (fun r =>
           let f := to_numeric parse_object (dict_get "current_speed" r) in
           DashRow r (Num f) (PrimFloat.ltb f 20%float))
        (List.filter (kept parse_object) rs).
Proof.
  unfold prepare, speed_column. cbn [rows].
  induction rs as [|r rs IH]; cbn [map List.filter]; [reflexivity|].
  unfold kept at 1, replace_sentinel at 1. cbn [snd fst].
  set (f := to_numeric parse_object (dict_get "current_speed" r)).
  destruct (PrimFloat.eqb f (-1)%float) eqn:E1; cbn [notna negb andb].
  - exact IH.
  - destruct (PrimFloat.eqb f f) eqn:E2.
    + cbn [map fst snd]. rewrite IH. unfold replace_sentinel. rewrite E1.
      reflexivity.
    + exact IH.
Qed.

End DashboardOrder.

(** X16. The dashboard works on a filter of the table: the frame after
    line 168 holds, in table order and with repetitions, exactly the
    stored rows whose current_speed is a number other than -1, each with
    that number as its speed and congested exactly when it is below 20;
    a row whose current_speed is NULL or missing is not among them. *)
Theorem dashboard_keeps_valid_speeds (parse_object : pyval -> float) (df : frame) :
  prepare parse_object df
  = map (fun r =>
           let f := to_numeric parse_object (dict_get "current_speed" r) in
           DashRow r (Num f) (PrimFloat.ltb f 20%float))
        (List.filter (kept parse_object) (rows df))
  /\ (forall r, dict_get "current_speed" r = PNone -> kept parse_object r = false).
Proof.
  split.
  - destruct df as [cols rs]. apply prepare_is_filter.
  - intros r Hr. unfold kept. rewrite Hr. vm_compute. reflexivity.
Qed.

Lemma dashboard_keeps_valid_speeds_witness :
  kept (fun _ => nan) [("segmentid", PStr "123")] = false
  /\ map record
         (prepare (fun _ => nan)
            (Frame fields [ normalize (reading 25); [("segmentid", PStr "123")];
                            normalize (reading 15); normalize (reading 25) ]))
     = [normalize (reading 25); normalize (reading 15); normalize (reading 25)].
Proof.
  destruct (dashboard_keeps_valid_speeds
              (fun _ => nan)
              (Frame fields [ normalize (reading 25); [("segmentid", PStr "123")];
                              normalize (reading 15); normalize (reading 25) ]))
    as (Hprep & Hnull).
  split.
  - apply Hnull. reflexivity.
  - rewrite Hprep. vm_compute. reflexivity.
Defined.

(** X17. Main, up to the start of the consumer thread.  With the database
    out of reach main raises OperationalError at once and changes nothing:
    no batch load is attempted.  When the two steps complete, both lines
    are printed, the connection that ensured the table is closed while the
    pool of the engine keeps the connection the batch load used,
    realtime_traffic_data exists with the rows it had, and each of the
    four batch tables holds the frame of its CSV file. *)
Theorem main_setup (w : world) :
  (db_up w = false -> main_before_thread w = (Raise OperationalError, w))
  /\ (fst (main_before_thread w) = Ok tt ->
      stdout (snd (main_before_thread w))
      = (stdout w ++ ["✅ realtime_traffic_data table ensured";
                      "✅ Batch data loaded"])%list
      /\ open_conns (snd (main_before_thread w)) = open_conns w
      /\ pooled (snd (main_before_thread w)) = true
      /\ is_Some (db (snd (main_before_thread w)) !! "realtime_traffic_data")
      /\ realtime_rows (snd (main_before_thread w)) = realtime_rows w
      /\ forall table path, In (table, path) files ->
           db (snd (main_before_thread w)) !! table = csv_files w !! path).
Proof.
  split.
  - intros Hup. unfold main_before_thread.
    apply bind_raise, ensure_down, Hup.
  - unfold main_before_thread.
    destruct (db_up w) eqn:Hup.
    2:{ rewrite (bind_raise _ _ _ _ _ (ensure_down w Hup)). discriminate. }
    rewrite (bind_ok _ _ _ _ _ (ensure_up w Hup)).
    set (w1 := set_stdout _ _).
    rewrite (load_run w1).
    destruct (load_result w1 files) as [[]|e] eqn:Hres; [|discriminate].
    intros _. cbn [snd stdout open_conns pooled db set_stdout set_db set_pooled].
    apply load_result_ok in Hres; [|discriminate]. destruct Hres as [Hup1 Hread].
    assert (Hlook : load_effect w1 files (db w1) !! "realtime_traffic_data"
                    = ensured_db (db w) !! "realtime_traffic_data").
    { apply load_effect_elsewhere. cbn. intros H.
      repeat (destruct H as [H|H]; [discriminate H|]). exact H. }
    destruct (ensured_lookup (db w)) as (t & Ht & Hrows).
    split; [subst w1; cbn [stdout set_stdout set_db]; rewrite <- app_assoc;
            reflexivity|].
    split; [reflexivity|].
    split.
    { unfold load_touch, files.
      destruct (Hread "historical_traffic" "data/historical_traffic.csv"
                      (or_introl eq_refl)) as [df Hdf].
      rewrite Hdf, Hup1. apply orb_true_r. }
    split; [rewrite Hlook, Ht; eexists; reflexivity|].
    split.
    { unfold realtime_rows at 1. cbn [db set_stdout set_pooled set_db].
      rewrite Hlook, Ht. exact Hrows. }
    intros table path Hin.
    exact (load_effect_inside w1 files (db w1) Hup1 files_distinct Hread
                              table path Hin).
Qed.

Lemma main_setup_witness :
  main_before_thread db_out = (Raise OperationalError, db_out)
  /\ realtime_rows (snd (main_before_thread archive)) = [normalize (reading 30)]
  /\ pooled (snd (main_before_thread archive)) = true.
Proof.
  destruct (main_setup db_out) as (Hdown & _).
  destruct (main_setup archive) as (_ & Hok).
  destruct (Hok eq_refl) as (_ & _ & Hpool & _ & Hrows & _).
  split; [exact (Hdown eq_refl)|].
  split; [rewrite Hrows; vm_compute; reflexivity | exact Hpool].
Defined.
